(** * influmojo-backend: phone verification, bearer-token gate and creator
    onboarding handlers

    A shallow embedding of [src/routes/auth.js] and the profile routes.
    Every handler is a computation in a state-and-exception monad over a
    [World] holding what the JavaScript code reaches through globals:
    [process.env], the clock, the Prisma tables, the random sources, the
    Twilio Verify service and the console.

    Conventions.  A request runs alone, and the millisecond clock does not
    advance while it runs.  The database is up: a Prisma call throws only
    for an ill-typed argument or a missing row to update.  Building the
    Twilio client and signing a token return; the calls to the Twilio REST
    API and [jwt.verify] may throw, as the world and the runtime decide. *)

From Stdlib Require Import ZArith QArith String Ascii List Bool Lia.
From stdpp Require Import base option list gmap strings.

Set Warnings "-register-all".

Local Open Scope string_scope.
Local Open Scope Z_scope.

(** ** Decimal printing of integers ([BigInt.prototype.toString] and
    [Number.prototype.toString] on integral values below 1e21) *)

Definition digit_char (d : Z) : ascii :=
  ascii_of_nat (48 + Z.to_nat d).

Fixpoint digits_fuel (fuel : nat) (n : Z) (acc : string) : string :=
  match fuel with
  | O => acc
  | S fuel' =>
      let acc' := String (digit_char (n mod 10)) acc in
      if n <? 10 then acc' else digits_fuel fuel' (n / 10) acc'
  end.

Definition digits (n : Z) : string :=
  digits_fuel (S (Z.to_nat (Z.log2 n))) n "".

Definition Z_toString (n : Z) : string :=
  if n <? 0 then "-" ++ digits (- n) else digits n.

Definition is_digit (c : ascii) : bool :=
  let k := nat_of_ascii c in (48 <=? k)%nat && (k <=? 57)%nat.

Fixpoint all_digits (s : string) : bool :=
  match s with
  | EmptyString => true
  | String c s' => is_digit c && all_digits s'
  end.

(** ** IEEE binary64 arithmetic on finite non-negative values

    Every finite double is an integer multiple of [2^-1074].  A
    non-negative double [x] is held as the integer [x * 2^1074]; an exact
    intermediate result is an integer [N] with a scale [p >= 1074]
    (value [N * 2^-p]) and is rounded to 53 significant bits, ties to
    even, never below the [2^-1074] grid.  Overflow to infinity is left
    out: the values computed here stay below [2^20]. *)

Module F64.

Definition prec : Z := 53.
Definition emin : Z := 1074.
Definition one : Z := 2 ^ emin.

(** [rne N s]: [N / 2^s] rounded to the nearest integer, ties to even. *)
Definition rne (N s : Z) : Z :=
  let q := N / 2 ^ s in
  let r := N mod 2 ^ s in
  if 2 * r <? 2 ^ s then q
  else if 2 ^ s <? 2 * r then q + 1
  else if Z.even q then q else q + 1.

(** Rounding of the exact value [N * 2^-p] to a double. *)
Definition round_at (N p : Z) : Z :=
  let s := Z.max (p - emin) (Z.log2 N + 1 - prec) in
  rne N s * 2 ^ (s - (p - emin)).


Definition of_int (n : Z) : Z := round_at (n * one) emin.
Definition add (X Y : Z) : Z := round_at (X + Y) emin.
Definition mul (X Y : Z) : Z := round_at (X * Y) (2 * emin).
(** [Math.floor] of a non-negative double, as an integer. *)
Definition floor (X : Z) : Z := X / one.

End F64.

(** [Math.floor(100000 + Math.random() * 900000).toString()], as a
    function of the double [r] that [Math.random()] returned. *)
Definition otp_value (r : Z) : Z :=
  F64.floor (F64.add (F64.of_int 100000) (F64.mul r (F64.of_int 900000))).

Definition generate_otp (r : Z) : string := Z_toString (otp_value r).


(** ** JavaScript values

    Request bodies, decoded token payloads and response bodies are
    JavaScript values.  Numbers are kept as rationals (every finite double
    is one); the handlers below never compute with them. *)

Inductive Value :=
| VUndefined
| VNull
| VBool (b : bool)
| VNum (q : Q)
| VBigInt (n : Z)
| VDate (ms : Z)
| VStr (s : string)
| VArr (items : list Value)
| VObj (fields : list (string * Value)).

(** Property read [o.k]; [undefined] when absent. *)
Fixpoint assoc (k : string) (fields : list (string * Value)) : Value :=
  match fields with
  | [] => VUndefined
  | (k', v) :: rest => if String.eqb k k' then v else assoc k rest
  end.

Definition get (o : Value) (k : string) : Value :=
  match o with
  | VObj fields => assoc k fields
  | _ => VUndefined
  end.

(** JavaScript truthiness, as used by [!x], [x || y] and [x && y]. *)
Definition truthy (v : Value) : bool :=
  match v with
  | VUndefined | VNull => false
  | VBool b => b
  | VNum q => negb (Qeq_bool q 0)
  | VBigInt n => negb (n =? 0)
  | VStr s => negb (String.eqb s "")
  | VDate _ | VArr _ | VObj _ => true
  end.

(** A thrown [Error] object: the handlers read [.message] and [.status]. *)
Record Exn := mkExn {
  exn_name : string;
  exn_message : string;
  exn_status : option Z
}.

Record Response := mkResponse {
  status : Z;
  body : Value
}.

Record Request := mkRequest {
  authorization : option string;   (* req.headers.authorization *)
  req_body : Value                 (* req.body *)
}.

Fixpoint drop_chars (n : nat) (s : string) : string :=
  match n, s with
  | O, _ => s
  | S n', String _ s' => drop_chars n' s'
  | S _, EmptyString => EmptyString
  end.

(** [String.prototype.replace(pat, rep)] with a string pattern: the first
    occurrence only. *)
Fixpoint replace (pat rep s : string) : string :=
  if String.prefix pat s then rep ++ drop_chars (String.length pat) s
  else match s with
       | EmptyString => EmptyString
       | String c s' => String c (replace pat rep s')
       end.

(** ** Tables *)

Module PhoneVerification.
Record t := mk {
  id : Z;
  phone : string;
  code : string;
  token : string;
  created_at : Z;
  expires_at : Z;
  verified_at : option Z
}.
End PhoneVerification.

Module User.
Record t := mk {
  id : Z;
  email : option string;
  phone : option string;
  name : option string;
  profile_image_url : option string;
  auth_provider : option string;
  email_verified : bool;
  phone_verified : bool;
  user_type : string;
  status : string;
  last_login_at : option Z;
  onboarding_step : Z
}.
End User.

Module CreatorProfile.
Record t := mk {
  id : Z;
  user_id : Z
}.
End CreatorProfile.

Module Package.
Record t := mk {
  id : Z;
  creator_id : Z;
  package_type : string;
  title : string;
  description : Value;
  platform : string;
  content_type : Value;
  quantity : Value;
  revisions : Value;
  duration : string;
  price : Value;
  currency : string;
  status : string
}.
End Package.

Module PortfolioItem.
Record t := mk {
  id : Z;
  creator_id : Z;
  media_type : string;
  media_url : Value;
  title : Value;
  description : string;
  file_size : Z;
  mime_type : Value;
  status : string
}.
End PortfolioItem.

Module KYC.
Record t := mk {
  id : Z;
  creator_id : Z;
  document_type : string;
  document_front_url : Value;
  document_back_url : Value;
  status : string;
  submitted_at : Z
}.
End KYC.

Record Db := mkDb {
  phoneVerification : list PhoneVerification.t;
  user : list User.t;
  creatorProfile : list CreatorProfile.t;
  package : list Package.t;
  portfolioItem : list PortfolioItem.t;
  kYC : list KYC.t
}.

(** ** The world a request runs in *)

Inductive TwilioCall :=
| VerificationsCreate (service : string) (to : Value) (channel : string)
| VerificationChecksCreate (service : string) (to code : Value).

Inductive ConsoleLine :=
| Log (line : string)
| Error (label : string) (e : Exn).

Record World := mkWorld {
  env : gmap string string;          (* process.env *)
  clock : Z;                         (* Date.now(), in milliseconds *)
  db : Db;
  (* Math.random(): the doubles it will return, and how many were drawn *)
  math_random : nat -> Z;
  math_random_drawn : nat;
  (* crypto.randomBytes(32).toString('hex') *)
  random_hex : nat -> string;
  random_hex_drawn : nat;
  (* Twilio Verify: the answer to a call, given the calls made before it *)
  twilio : list TwilioCall -> TwilioCall -> Exn + string;
  twilio_calls : list TwilioCall;
  console : list ConsoleLine
}.


Definition with_db (d : Db) (w : World) : World :=
  mkWorld (env w) (clock w) d (math_random w) (math_random_drawn w)
          (random_hex w) (random_hex_drawn w) (twilio w) (twilio_calls w)
          (console w).

Definition with_math_random_drawn (n : nat) (w : World) : World :=
  mkWorld (env w) (clock w) (db w) (math_random w) n
          (random_hex w) (random_hex_drawn w) (twilio w) (twilio_calls w)
          (console w).

Definition with_random_hex_drawn (n : nat) (w : World) : World :=
  mkWorld (env w) (clock w) (db w) (math_random w) (math_random_drawn w)
          (random_hex w) n (twilio w) (twilio_calls w) (console w).

Definition with_twilio_calls (l : list TwilioCall) (w : World) : World :=
  mkWorld (env w) (clock w) (db w) (math_random w) (math_random_drawn w)
          (random_hex w) (random_hex_drawn w) (twilio w) l (console w).

Definition with_console (l : list ConsoleLine) (w : World) : World :=
  mkWorld (env w) (clock w) (db w) (math_random w) (math_random_drawn w)
          (random_hex w) (random_hex_drawn w) (twilio w) (twilio_calls w) l.

Definition with_phoneVerification (l : list PhoneVerification.t) (d : Db) : Db :=
  mkDb l (user d) (creatorProfile d) (package d) (portfolioItem d) (kYC d).

Definition with_user (l : list User.t) (d : Db) : Db :=
  mkDb (phoneVerification d) l (creatorProfile d) (package d) (portfolioItem d) (kYC d).

Definition with_package (l : list Package.t) (d : Db) : Db :=
  mkDb (phoneVerification d) (user d) (creatorProfile d) l (portfolioItem d) (kYC d).

Definition with_portfolioItem (l : list PortfolioItem.t) (d : Db) : Db :=
  mkDb (phoneVerification d) (user d) (creatorProfile d) (package d) l (kYC d).

Definition with_kYC (l : list KYC.t) (d : Db) : Db :=
  mkDb (phoneVerification d) (user d) (creatorProfile d) (package d) (portfolioItem d) l.

(** ** The handler monad: state, exceptions and [return res...]

    A statement completes normally, throws, or sends the response and
    returns from the handler (every [res.json] of the source is either
    [return]ed or the last statement of its handler).  State changes made
    before a throw persist: nothing here runs in a transaction. *)

Inductive Completion (A : Type) :=
| Normal (a : A)
| Throw (e : Exn)
| Return (r : Response).
Arguments Normal {A} a.
Arguments Throw {A} e.
Arguments Return {A} r.

Definition M (A : Type) : Type := World -> Completion A * World.

Definition ret {A} (a : A) : M A := fun w => (Normal a, w).
Definition throw {A} (e : Exn) : M A := fun w => (Throw e, w).
Definition respond {A} (r : Response) : M A := fun w => (Return r, w).
(** [return res.status(st).json(b)] *)
Definition send {A} (st : Z) (b : Value) : M A := respond (mkResponse st b).

Definition bind {A B} (m : M A) (k : A -> M B) : M B :=
  fun w =>
    match m w with
    | (Normal a, w') => k a w'
    | (Throw e, w') => (Throw e, w')
    | (Return r, w') => (Return r, w')
    end.

(** [try { m } catch (e) { h e }] *)
Definition try_catch {A} (m : M A) (h : Exn -> M A) : M A :=
  fun w =>
    match m w with
    | (Throw e, w') => h e w'
    | other => other
    end.

Declare Scope js_scope.
Delimit Scope js_scope with js.
Notation "'let*' x := m 'in' k" := (bind m (fun x => k))
  (at level 10, x name, m at level 100, k at level 200) : js_scope.
Notation "m ;; k" := (bind m (fun _ => k))
  (at level 100, k at level 200, right associativity) : js_scope.
Local Open Scope js_scope.

Definition gets {A} (f : World -> A) : M A := fun w => (Normal (f w), w).
Definition modify (f : World -> World) : M unit := fun w => (Normal tt, f w).

Definition Date_now : M Z := gets clock.

Definition Math_random : M Z :=
  fun w => (Normal (math_random w (math_random_drawn w)),
            with_math_random_drawn (S (math_random_drawn w)) w).

Definition crypto_randomBytes_hex : M string :=
  fun w => (Normal (random_hex w (random_hex_drawn w)),
            with_random_hex_drawn (S (random_hex_drawn w)) w).

Definition console_log (line : string) : M unit :=
  modify (fun w => with_console (console w ++ [Log line]) w).

Definition console_error (label : string) (e : Exn) : M unit :=
  modify (fun w => with_console (console w ++ [Error label e]) w).

(** [process.env.K] in a boolean position, and [process.env.K || dflt]. *)
Definition env_set (k : string) (w : World) : bool :=
  match env w !! k with
  | Some s => negb (String.eqb s "")
  | None => false
  end.

Definition env_or (k dflt : string) (w : World) : string :=
  match env w !! k with
  | Some s => if String.eqb s "" then dflt else s
  | None => dflt
  end.

Definition env_get (k : string) (w : World) : string :=
  default "" (env w !! k).

(** A call to the Twilio Verify REST API: recorded, then answered. *)
Definition twilio_request (c : TwilioCall) : M string :=
  fun w =>
    let w' := with_twilio_calls (twilio_calls w ++ [c]) w in
    match twilio w (twilio_calls w) c with
    | inl e => (Throw e, w')
    | inr st => (Normal st, w')
    end.

(** ** What the handlers call but this repository does not define

    The validators of express-validator, jsonwebtoken's [sign] and
    [verify], and the JavaScript built-ins applied to request values are
    parameters of the development. *)

Inductive Validator :=
| isMobilePhone
| notEmpty
| isLength (min max : Z)
| optional_isString
| optional
| isIn (allowed : list string)
| isInt (min : Z)
| isFloat (min : Z).

Record Check := body_check {
  path : string;
  validator : Validator;
  withMessage : string
}.

Class Runtime := {
  (* express-validator: does the field value pass, and the error entry *)
  passes : Validator -> Value -> bool;
  validation_error : Check -> Value -> Value;
  (* the generated Prisma client: the value it reads for a BigInt column *)
  BigInt_argument : Value -> Exn + Z;
  (* jsonwebtoken *)
  jwt_sign : Value -> string -> string -> string;
  jwt_verify : string -> string -> Z -> Exn + Value;
  (* built-ins *)
  toUpperCase : string -> string;
  parseInt : Value -> Value;
  parseFloat : Value -> Value;
  ToString : Value -> string;
  BigInt : Value -> Exn + Z
}.

(** ** The Prisma client over the tables *)

Definition next_id (ids : list Z) : Z := 1 + fold_right Z.max 0 ids.

Definition opt_str (o : option string) : Value :=
  match o with
  | Some s => VStr s
  | None => VNull
  end.

Definition PrismaClientValidationError : Exn :=
  mkExn "PrismaClientValidationError" "Invalid value provided. Expected String." None.

Definition RecordNotFound : Exn :=
  mkExn "PrismaClientKnownRequestError" "Record to update not found." None.

Definition TypeError (msg : string) : Exn := mkExn "TypeError" msg None.

(** A [String] column compared with or set to a request value: Prisma
    rejects the query when the value is not a string. *)
Definition as_String (v : Value) : M string :=
  match v with
  | VStr s => ret s
  | _ => throw PrismaClientValidationError
  end.

(** The row a [findFirst] ordered by [created_at: 'desc'] returns; among
    rows created at the same instant, the one stored first. *)
Fixpoint most_recent (rows : list PhoneVerification.t) : option PhoneVerification.t :=
  match rows with
  | [] => None
  | r :: rest =>
      match most_recent rest with
      | None => Some r
      | Some r' =>
          if PhoneVerification.created_at r' <=? PhoneVerification.created_at r
          then Some r else Some r'
      end
  end.

Module prisma.

Module phoneVerification.
Import PhoneVerification.

Definition findFirst (where_ : t -> bool) : M (option t) :=
  gets (fun w => List.find where_ (phoneVerification (db w))).

Definition findFirst_orderBy_created_at_desc (where_ : t -> bool) : M (option t) :=
  gets (fun w => most_recent (List.filter where_ (phoneVerification (db w)))).

(** Modelled from the spec: the Prisma schema is not among the sources;
    [created_at] is the creation time, filled in by the database. *)
Definition create (phone code token : string) (expires_at : Z) : M t :=
  fun w =>
    let rows := phoneVerification (db w) in
    let row := mk (next_id (map id rows)) phone code token (clock w) expires_at None in
    (Normal row, with_db (with_phoneVerification (rows ++ [row]) (db w)) w).

Definition set_verified_at (at_ : Z) (r : t) : t :=
  mk (id r) (phone r) (code r) (token r) (created_at r) (expires_at r) (Some at_).

Definition update_verified_at (id_ : Z) (at_ : Z) : M t :=
  fun w =>
    let rows := phoneVerification (db w) in
    match List.find (fun r => id r =? id_) rows with
    | None => (Throw RecordNotFound, w)
    | Some r =>
        let rows' := map (fun r => if id r =? id_ then set_verified_at at_ r else r) rows in
        (Normal (set_verified_at at_ r), with_db (with_phoneVerification rows' (db w)) w)
    end.

End phoneVerification.

Module user.
Import User.

Definition findUnique_phone (phone_ : string) : M (option t) :=
  gets (fun w => List.find (fun u => bool_decide (phone u = Some phone_)) (user (db w))).

Definition findUnique_id (id_ : Z) : M (option t) :=
  gets (fun w => List.find (fun u => id u =? id_) (user (db w))).

Definition create (row : Z -> t) : M t :=
  fun w =>
    let rows := user (db w) in
    let u := row (next_id (map id rows)) in
    (Normal u, with_db (with_user (rows ++ [u]) (db w)) w).

Definition update (id_ : Z) (data : t -> t) : M t :=
  fun w =>
    let rows := user (db w) in
    match List.find (fun u => id u =? id_) rows with
    | None => (Throw RecordNotFound, w)
    | Some u =>
        let rows' := map (fun u => if id u =? id_ then data u else u) rows in
        (Normal (data u), with_db (with_user rows' (db w)) w)
    end.

End user.

Module creatorProfile.
Import CreatorProfile.

Definition findUnique_user_id (user_id_ : Z) : M (option t) :=
  gets (fun w => List.find (fun p => user_id p =? user_id_) (creatorProfile (db w))).

End creatorProfile.

Module package.
Import Package.

Definition create (row : Z -> t) : M t :=
  fun w =>
    let rows := package (db w) in
    let p := row (next_id (map id rows)) in
    (Normal p, with_db (with_package (rows ++ [p]) (db w)) w).

End package.

Module portfolioItem.
Import PortfolioItem.

Definition create (row : Z -> t) : M t :=
  fun w =>
    let rows := portfolioItem (db w) in
    let p := row (next_id (map id rows)) in
    (Normal p, with_db (with_portfolioItem (rows ++ [p]) (db w)) w).

End portfolioItem.

Module kYC.
Import KYC.

(** [upsert] keyed by [creator_id]: the [update] and [create] payloads of
    the handler differ only in that [create] also sets the key. *)
Definition upsert_creator_id (creator_id_ : Z) (data : Z -> t) : M t :=
  fun w =>
    let rows := kYC (db w) in
    match List.find (fun k => creator_id k =? creator_id_) rows with
    | Some k0 =>
        let k := data (id k0) in
        let rows' := map (fun r => if creator_id r =? creator_id_ then k else r) rows in
        (Normal k, with_db (with_kYC rows' (db w)) w)
    | None =>
        let k := data (next_id (map id rows)) in
        (Normal k, with_db (with_kYC (rows ++ [k]) (db w)) w)
    end.

End kYC.

End prisma.

(** ** Handlers *)

Section Handlers.
Context {RT : Runtime}.

Definition str (s : string) : Value := VStr s.

(** [validateRequest], after the route's validation chain has run. *)
Definition validationResult (checks : list Check) (req : Request) : list Value :=
  flat_map (fun c =>
              let v := get (req_body req) (path c) in
              if passes (validator c) v then [] else [validation_error c v])
           checks.

Definition validateRequest (checks : list Check) (req : Request) (next : M unit) : M unit :=
  match validationResult checks req with
  | [] => next
  | errors =>
      send 400 (VObj [("error", str "Validation failed"); ("details", VArr errors)])
  end.

(** [jwt.verify(token, process.env.JWT_SECRET || 'your-secret-key')] *)
Definition jwt_verify_env (token : string) : M Value :=
  fun w =>
    match jwt_verify token (env_or "JWT_SECRET" "your-secret-key" w) (clock w) with
    | inl e => (Throw e, w)
    | inr decoded => (Normal decoded, w)
    end.

Definition generateToken (userId : Z) : M string :=
  let* now := Date_now in
  let* secret := gets (env_or "JWT_SECRET" "your-secret-key") in
  ret (jwt_sign (VObj [("userId", str (Z_toString userId)); ("iat", VNum (inject_Z now))])
                secret "7d").

(** The three Twilio secrets, all set. *)
Definition twilio_configured (w : World) : bool :=
  env_set "TWILIO_ACCOUNT_SID" w && env_set "TWILIO_AUTH_TOKEN" w
  && env_set "TWILIO_VERIFY_SERVICE_SID" w.

(** *** POST /send-phone-verification-code *)

Definition send_checks : list Check :=
  [body_check "phone" isMobilePhone "Valid phone number is required"].

Definition recent_for (phone_ : string) (since : Z) (r : PhoneVerification.t) : bool :=
  String.eqb (PhoneVerification.phone r) phone_
  && (since <? PhoneVerification.created_at r).

(** Send SMS using Twilio Verify (if configured); the value is [smsSent]. *)
Definition dispatch_sms (phone : Value) (phone_s otp : string) : M bool :=
  let* configured := gets twilio_configured in
  if configured : bool then
    let* sid := gets (env_get "TWILIO_VERIFY_SERVICE_SID") in
    try_catch
      (let* _ := twilio_request (VerificationsCreate sid phone "sms") in
       console_log ("Verification SMS sent to " ++ phone_s) ;;
       ret true)
      (fun smsError =>
         console_error "SMS sending failed:" smsError ;;
         (* Handle rate limiting specifically *)
         (if bool_decide (exn_status smsError = Some 429) then
            console_log ("Rate limit hit for " ++ phone_s ++ ". OTP: " ++ otp
                         ++ " (check console for development)") ;;
            console_log "Please wait before requesting another code or upgrade your Twilio plan"
          else
            console_log ("OTP for " ++ phone_s ++ ": " ++ otp
                         ++ " (SMS failed, using console log)")) ;;
         ret false)
  else
    (* Development mode - just log the OTP *)
    console_log ("OTP for " ++ phone_s ++ ": " ++ otp ++ " (Twilio not configured)") ;;
    ret false.

Definition send_ok (phone : Value) : Response :=
  mkResponse 200 (VObj [("success", VBool true);
                        ("message", str "Verification code sent successfully");
                        ("phone", phone)]).

Definition send_cooldown : Response :=
  mkResponse 429 (VObj [("error", str "Please wait 1 minute before requesting another code")]).

Definition send_phone_verification_code (req : Request) : M unit :=
  validateRequest send_checks req
  (try_catch
     (let phone := get (req_body req) "phone" in
      (* Check for recent OTP requests to prevent spam *)
      let* now := Date_now in
      let* phone_s := as_String phone in
      let* recentVerification :=
        prisma.phoneVerification.findFirst (recent_for phone_s (now - 60 * 1000)) in
      match recentVerification with
      | Some _ => respond send_cooldown
      | None =>
          (* Generate 6-digit OTP *)
          let* r := Math_random in
          let otp := generate_otp r in
          (* Generate unique token *)
          let* token := crypto_randomBytes_hex in
          (* Store OTP in database *)
          let* now' := Date_now in
          let* _ := prisma.phoneVerification.create phone_s otp token (now' + 10 * 60 * 1000) in
          let* smsSent := dispatch_sms phone phone_s otp in
          respond (send_ok phone)
      end)
     (fun error =>
        console_error "Send OTP error:" error ;;
        send 500 (VObj [("error", str "Failed to send verification code");
                        ("message", str (exn_message error))]))).

(** *** POST /verify-phone-code *)

Definition verify_checks : list Check :=
  [body_check "phone" isMobilePhone "Valid phone number is required";
   body_check "code" (isLength 6 6) "6-digit code is required";
   body_check "fullName" optional_isString "Full name must be a string"].

(** The [where] of the fallback lookup: this phone, this code, not yet
    expired, not yet verified. *)
Definition pending_for (phone_ code_ : string) (now : Z) (r : PhoneVerification.t) : bool :=
  String.eqb (PhoneVerification.phone r) phone_
  && String.eqb (PhoneVerification.code r) code_
  && (now <? PhoneVerification.expires_at r)
  && bool_decide (PhoneVerification.verified_at r = None).

(** Modelled from the spec: the Prisma schema is not among the sources;
    the columns a [create] leaves out take their defaults; unset columns
    are null, flags are false and the onboarding step is 0. *)
Definition new_phone_user (phone_ name_ : string) (id_ : Z) : User.t :=
  User.mk id_ None (Some phone_) (Some name_) None None false true "creator" "active" None 0.

Definition login_phone_user (now : Z) (name_ : option string) (u : User.t) : User.t :=
  User.mk (User.id u) (User.email u) (User.phone u)
          (match name_ with Some n => Some n | None => User.name u end)
          (User.profile_image_url u) (User.auth_provider u) (User.email_verified u)
          true (User.user_type u) (User.status u) (Some now) (User.onboarding_step u).

Definition invalid_code : Response :=
  mkResponse 400 (VObj [("error", str "Invalid verification code")]).

Definition invalid_or_expired : Response :=
  mkResponse 400 (VObj [("error", str "Invalid or expired verification code")]).

(** Verify with Twilio Verify (if configured); the value is
    [twilioVerification]. *)
Definition twilio_check (phone code : Value) : M bool :=
  let* configured := gets twilio_configured in
  if configured : bool then
    let* sid := gets (env_get "TWILIO_VERIFY_SERVICE_SID") in
    try_catch
      (let* verificationCheck_status :=
         twilio_request (VerificationChecksCreate sid phone code) in
       if String.eqb verificationCheck_status "approved" then ret true
       else respond invalid_code)
      (fun verifyError =>
         console_error "Twilio verification failed:" verifyError ;;
         (* If Twilio fails (rate limit, etc.), fall back to database verification *)
         (if bool_decide (exn_status verifyError = Some 429) then
            console_log "Twilio rate limit hit, falling back to database verification"
          else
            console_log "Twilio verification error, falling back to database verification") ;;
         ret false)
  else ret false.

(** Fallback to database verification. *)
Definition database_verification (phone code : Value) : M unit :=
  let* phone_s := as_String phone in
  let* code_s := as_String code in
  let* now := Date_now in
  let* verification :=
    prisma.phoneVerification.findFirst_orderBy_created_at_desc
      (pending_for phone_s code_s now) in
  match verification with
  | None => respond invalid_or_expired
  | Some v =>
      (* Mark as verified *)
      let* now' := Date_now in
      let* _ := prisma.phoneVerification.update_verified_at (PhoneVerification.id v) now' in
      ret tt
  end.

(** Check if user exists with this phone; create or update. *)
Definition find_or_create_phone_user (phone fullName : Value) : M User.t :=
  let* phone_s := as_String phone in
  let* found := prisma.user.findUnique_phone phone_s in
  match found with
  | None =>
      (* Create new user with full name *)
      let* name_ := as_String (if truthy fullName then fullName else str "User") in
      prisma.user.create (new_phone_user phone_s name_)
  | Some u =>
      (* Update existing user *)
      let* now := Date_now in
      let* name_ := (if truthy fullName
                     then (let* n := as_String fullName in ret (Some n))
                     else ret None) in
      prisma.user.update (User.id u) (login_phone_user now name_)
  end.

Definition verify_ok (user : User.t) (token : string) : Response :=
  mkResponse 200
    (VObj [("success", VBool true);
           ("message", str "Phone verification successful");
           ("user", VObj [("id", str (Z_toString (User.id user)));
                          ("phone", opt_str (User.phone user));
                          ("name", opt_str (User.name user));
                          ("isVerified", VBool (User.phone_verified user))]);
           ("token", str token)]).

Definition verify_phone_code (req : Request) : M unit :=
  validateRequest verify_checks req
  (try_catch
     (let phone := get (req_body req) "phone" in
      let code := get (req_body req) "code" in
      let fullName := get (req_body req) "fullName" in
      let* twilioVerification := twilio_check phone code in
      (* If Twilio verification failed or not configured, use database verification *)
      (if negb twilioVerification then database_verification phone code else ret tt) ;;
      let* user := find_or_create_phone_user phone fullName in
      (* Generate JWT token *)
      let* token := generateToken (User.id user) in
      respond (verify_ok user token))
     (fun error =>
        console_error "Verify OTP error:" error ;;
        send 500 (VObj [("error", str "Phone verification failed");
                        ("message", str (exn_message error))]))).

(** *** Bearer tokens *)

(** [req.headers.authorization?.replace('Bearer ', '')] *)
Definition bearer_token (req : Request) : option string :=
  replace "Bearer " "" <$> authorization req.

(** [!token]: the header is absent or nothing is left of it. *)
Definition no_token (t : option string) : bool :=
  match t with
  | None => true
  | Some s => String.eqb s ""
  end.

(** A [BigInt] column compared with a JavaScript value, as the generated
    client reads it. *)
Definition as_BigInt (v : Value) : M Z :=
  match BigInt_argument v with
  | inl e => throw e
  | inr n => ret n
  end.

(** *** POST /update-name *)

Definition update_name_checks : list Check :=
  [body_check "name" notEmpty "Name is required"].

Definition set_name (name_ : string) (u : User.t) : User.t :=
  User.mk (User.id u) (User.email u) (User.phone u) (Some name_)
          (User.profile_image_url u) (User.auth_provider u) (User.email_verified u)
          (User.phone_verified u) (User.user_type u) (User.status u)
          (User.last_login_at u) (User.onboarding_step u).

Definition update_name (req : Request) : M unit :=
  validateRequest update_name_checks req
  (try_catch
     (let token := bearer_token req in
      if no_token token then send 401 (VObj [("error", str "No token provided")])
      else
        let* decoded := jwt_verify_env (default "" token) in
        let name_ := get (req_body req) "name" in
        let* id_ := as_BigInt (get decoded "userId") in
        let* name_s := as_String name_ in
        let* user := prisma.user.update id_ (set_name name_s) in
        send 200 (VObj [("success", VBool true);
                        ("message", str "Name updated successfully");
                        ("user", VObj [("id", str (Z_toString (User.id user)));
                                       ("name", opt_str (User.name user));
                                       ("email", opt_str (User.email user));
                                       ("phone", opt_str (User.phone user))])]))
     (fun error =>
        console_error "Update name error:" error ;;
        send 500 (VObj [("error", str "Failed to update name");
                        ("message", str (exn_message error))]))).

(** *** GET /profile (auth routes) *)

Definition auth_profile (req : Request) : M unit :=
  try_catch
    (let token := bearer_token req in
     if no_token token then send 401 (VObj [("error", str "No token provided")])
     else
       let* decoded := jwt_verify_env (default "" token) in
       let* id_ := as_BigInt (get decoded "userId") in
       let* found := prisma.user.findUnique_id id_ in
       match found with
       | None => send 404 (VObj [("error", str "User not found")])
       | Some user =>
           send 200 (VObj [("success", VBool true);
                           ("user", VObj [("id", str (Z_toString (User.id user)));
                                          ("email", opt_str (User.email user));
                                          ("name", opt_str (User.name user));
                                          ("phone", opt_str (User.phone user));
                                          ("profileImage", opt_str (User.profile_image_url user));
                                          ("isVerified", VBool (User.email_verified user
                                                                || User.phone_verified user));
                                          ("userType", str (User.user_type user));
                                          ("status", str (User.status user))])])
       end)
    (fun error =>
       console_error "Get profile error:" error ;;
       send 401 (VObj [("error", str "Invalid token")])).

(** *** Profile routes: [authenticateToken]

    [next] receives [req.userId].  The route handlers are [async]: what
    they throw never reaches the middleware's [catch], which therefore
    covers [jwt.verify] alone. *)
Definition authenticateToken (req : Request) (next : Value -> M unit) : M unit :=
  let token := bearer_token req in
  if no_token token then send 401 (VObj [("error", str "No token provided")])
  else
    let* verified :=
      try_catch (let* decoded := jwt_verify_env (default "" token) in ret (Some decoded))
                (fun error => ret None) in
    match verified with
    | Some decoded => next (get decoded "userId")
    | None => send 401 (VObj [("error", str "Invalid token")])
    end.

(** A route declared as [router.post(path, checks, validateRequest,
    authenticateToken, handler)]. *)
Definition authenticated_route (checks : list Check) (handler : Request -> Value -> M unit)
    (req : Request) : M unit :=
  validateRequest checks req (authenticateToken req (handler req)).

Definition BigInt_M (v : Value) : M Z :=
  match BigInt v with
  | inl e => throw e
  | inr n => ret n
  end.

(** [v.toUpperCase()] *)
Definition toUpperCase_M (v : Value) : M string :=
  match v with
  | VStr s => ret (toUpperCase s)
  | _ => throw (TypeError "toUpperCase is not a function")
  end.

Definition or_empty (v : Value) : Value := if truthy v then v else str "".

Definition Package_json (p : Package.t) : Value :=
  VObj [("id", VBigInt (Package.id p)); ("creator_id", VBigInt (Package.creator_id p));
        ("package_type", str (Package.package_type p)); ("title", str (Package.title p));
        ("description", Package.description p); ("platform", str (Package.platform p));
        ("content_type", Package.content_type p); ("quantity", Package.quantity p);
        ("revisions", Package.revisions p); ("duration", str (Package.duration p));
        ("price", Package.price p); ("currency", str (Package.currency p));
        ("status", str (Package.status p))].

Definition PortfolioItem_json (p : PortfolioItem.t) : Value :=
  VObj [("id", VBigInt (PortfolioItem.id p)); ("creator_id", VBigInt (PortfolioItem.creator_id p));
        ("media_type", str (PortfolioItem.media_type p)); ("media_url", PortfolioItem.media_url p);
        ("title", PortfolioItem.title p); ("description", str (PortfolioItem.description p));
        ("file_size", VBigInt (PortfolioItem.file_size p));
        ("mime_type", PortfolioItem.mime_type p); ("status", str (PortfolioItem.status p))].

Definition KYC_json (k : KYC.t) : Value :=
  VObj [("id", VBigInt (KYC.id k)); ("creator_id", VBigInt (KYC.creator_id k));
        ("document_type", str (KYC.document_type k));
        ("document_front_url", KYC.document_front_url k);
        ("document_back_url", KYC.document_back_url k);
        ("status", str (KYC.status k)); ("submitted_at", VDate (KYC.submitted_at k))].

(** *** POST /create-package *)

Definition create_package_checks : list Check :=
  [body_check "platform" notEmpty "Platform is required";
   body_check "contentType" notEmpty "Content type is required";
   body_check "quantity" (isInt 1) "Valid quantity required";
   body_check "revisions" (isInt 0) "Valid revisions required";
   body_check "duration1" notEmpty "Duration 1 is required";
   body_check "duration2" notEmpty "Duration 2 is required";
   body_check "price" (isFloat 0) "Valid price required";
   body_check "description" optional ""].

Definition create_package_handler (req : Request) (req_userId : Value) : M unit :=
  try_catch
    (let b := req_body req in
     let platform := get b "platform" in
     let contentType := get b "contentType" in
     let quantity := get b "quantity" in
     let revisions := get b "revisions" in
     let duration1 := get b "duration1" in
     let duration2 := get b "duration2" in
     let price := get b "price" in
     let description := get b "description" in
     let* userId := BigInt_M req_userId in
     (* Get creator profile *)
     let* creatorProfile := prisma.creatorProfile.findUnique_user_id userId in
     match creatorProfile with
     | None => send 400 (VObj [("error", str "Creator profile not found")])
     | Some profile =>
         (* Create package *)
         let* platform_upper := toUpperCase_M platform in
         let* package :=
           prisma.package.create
             (fun id_ =>
                Package.mk id_ (CreatorProfile.id profile) "content"
                           (ToString platform ++ " " ++ ToString contentType)
                           (or_empty description) platform_upper contentType
                           (parseInt quantity) (parseInt revisions)
                           (ToString duration1 ++ " " ++ ToString duration2)
                           (parseFloat price) "INR" "active") in
         send 200 (VObj [("success", VBool true);
                         ("message", str "Package created successfully");
                         ("package", Package_json package)])
     end)
    (fun error =>
       console_error "Create package error:" error ;;
       send 500 (VObj [("error", str "Failed to create package");
                       ("message", str (exn_message error))])).

Definition create_package : Request -> M unit :=
  authenticated_route create_package_checks create_package_handler.

(** *** POST /create-portfolio *)

Definition create_portfolio_checks : list Check :=
  [body_check "mediaUrl" notEmpty "Media URL is required";
   body_check "mediaType" (isIn ["image"; "video"; "archive"; "document"])
              "Valid media type required";
   body_check "fileName" notEmpty "File name is required";
   body_check "fileSize" (isInt 1) "Valid file size required";
   body_check "mimeType" optional ""].

Definition create_portfolio_handler (req : Request) (req_userId : Value) : M unit :=
  try_catch
    (let b := req_body req in
     let mediaUrl := get b "mediaUrl" in
     let mediaType := get b "mediaType" in
     let fileName := get b "fileName" in
     let fileSize := get b "fileSize" in
     let mimeType := get b "mimeType" in
     let* userId := BigInt_M req_userId in
     (* Get creator profile *)
     let* creatorProfile := prisma.creatorProfile.findUnique_user_id userId in
     match creatorProfile with
     | None => send 400 (VObj [("error", str "Creator profile not found")])
     | Some profile =>
         (* Create portfolio item *)
         let* mediaType_upper := toUpperCase_M mediaType in
         let* file_size := BigInt_M fileSize in
         let* portfolioItem :=
           prisma.portfolioItem.create
             (fun id_ =>
                PortfolioItem.mk id_ (CreatorProfile.id profile) mediaType_upper mediaUrl
                                 fileName ("Uploaded file: " ++ ToString fileName)
                                 file_size (or_empty mimeType) "active") in
         send 200 (VObj [("success", VBool true);
                         ("message", str "Portfolio item created successfully");
                         ("portfolioItem", PortfolioItem_json portfolioItem)])
     end)
    (fun error =>
       console_error "Create portfolio error:" error ;;
       send 500 (VObj [("error", str "Failed to create portfolio item");
                       ("message", str (exn_message error))])).

Definition create_portfolio : Request -> M unit :=
  authenticated_route create_portfolio_checks create_portfolio_handler.

(** *** POST /submit-kyc *)

Definition submit_kyc_checks : list Check :=
  [body_check "documentType" (isIn ["aadhaar"; "pan"]) "Valid document type required";
   body_check "frontImageUrl" notEmpty "Front image URL is required";
   body_check "backImageUrl" notEmpty "Back image URL is required"].

Definition submit_kyc_handler (req : Request) (req_userId : Value) : M unit :=
  try_catch
    (let b := req_body req in
     let documentType := get b "documentType" in
     let frontImageUrl := get b "frontImageUrl" in
     let backImageUrl := get b "backImageUrl" in
     let* userId := BigInt_M req_userId in
     (* Get creator profile *)
     let* creatorProfile := prisma.creatorProfile.findUnique_user_id userId in
     match creatorProfile with
     | None => send 400 (VObj [("error", str "Creator profile not found")])
     | Some profile =>
         (* Create or update KYC *)
         let* documentType_upper := toUpperCase_M documentType in
         let* now := Date_now in
         let* kyc :=
           prisma.kYC.upsert_creator_id (CreatorProfile.id profile)
             (fun id_ =>
                KYC.mk id_ (CreatorProfile.id profile) documentType_upper
                       frontImageUrl backImageUrl "pending" now) in
         send 200 (VObj [("success", VBool true);
                         ("message", str "KYC submitted successfully");
                         ("kyc", KYC_json kyc)])
     end)
    (fun error =>
       console_error "Submit KYC error:" error ;;
       send 500 (VObj [("error", str "Failed to submit KYC");
                       ("message", str (exn_message error))])).

Definition submit_kyc : Request -> M unit :=
  authenticated_route submit_kyc_checks submit_kyc_handler.

(** The bearer-token gates: [update-name] and the auth [profile] fetch
    verify the token themselves, the profile routes through
    [authenticateToken]. *)
Inductive Endpoint :=
| UpdateName
| AuthProfile
| ProfileRoute (checks : list Check) (handler : Request -> Value -> M unit).

Definition serve (e : Endpoint) : Request -> M unit :=
  match e with
  | UpdateName => update_name
  | AuthProfile => auth_profile
  | ProfileRoute checks handler => authenticated_route checks handler
  end.

(** The calls the two phone handlers make to Twilio Verify in a world. *)
Definition start_call (w : World) (phone : Value) : TwilioCall :=
  VerificationsCreate (env_get "TWILIO_VERIFY_SERVICE_SID" w) phone "sms".

Definition check_call (w : World) (phone code : Value) : TwilioCall :=
  VerificationChecksCreate (env_get "TWILIO_VERIFY_SERVICE_SID" w) phone code.

(** What the provider answers to a call made in a world. *)
Definition twilio_answer (w : World) (c : TwilioCall) : Exn + string :=
  twilio w (twilio_calls w) c.

(** The validated [fullName]: left out, or a string. *)
Definition optional_string (v : Value) : Prop :=
  v = VUndefined \/ exists s, v = VStr s.

(** The console lines of a failed provider check. *)
Definition check_failure_lines (e : Exn) : list ConsoleLine :=
  [Error "Twilio verification failed:" e;
   Log (if bool_decide (exn_status e = Some 429)
        then "Twilio rate limit hit, falling back to database verification"
        else "Twilio verification error, falling back to database verification")].

(** The effect of [update({ where: { id }, data: { verified_at } })]. *)
Definition mark_verified (id_ at_ : Z) (rows : list PhoneVerification.t) :
    list PhoneVerification.t :=
  map (fun r => if PhoneVerification.id r =? id_
                then prisma.phoneVerification.set_verified_at at_ r else r) rows.

(** The session token [generateToken] issues in a world. *)
Definition session_token (w : World) (userId : Z) : string :=
  jwt_sign (VObj [("userId", VStr (Z_toString userId)); ("iat", VNum (inject_Z (clock w)))])
           (env_or "JWT_SECRET" "your-secret-key" w) "7d".

(** A world with another [phoneVerification] table. *)
Definition with_rows (rows : list PhoneVerification.t) (w : World) : World :=
  with_db (with_phoneVerification rows (db w)) w.

(** The response a run of a handler sent, if it sent one. *)
Definition sent {A} (run : Completion A * World) : option Response :=
  match fst run with
  | Return r => Some r
  | _ => None
  end.

Definition sent_status {A} (run : Completion A * World) : option Z :=
  status <$> sent run.

(** The row [send-phone-verification-code] stores in a world, and the
    world once the code is drawn and the row stored. *)
Definition issued_otp (w : World) : string :=
  generate_otp (math_random w (math_random_drawn w)).

Definition issued_row (w : World) (phone_ : string) : PhoneVerification.t :=
  PhoneVerification.mk
    (next_id (map PhoneVerification.id (phoneVerification (db w))))
    phone_ (issued_otp w) (random_hex w (random_hex_drawn w))
    (clock w) (clock w + 10 * 60 * 1000) None.

Definition issue_code (w : World) (phone_ : string) : World :=
  with_rows (phoneVerification (db w) ++ [issued_row w phone_])
    (with_random_hex_drawn (S (random_hex_drawn w))
       (with_math_random_drawn (S (math_random_drawn w)) w)).

(** The console lines of a failed SMS dispatch. *)
Definition sms_failure_lines (e : Exn) (phone_ otp : string) : list ConsoleLine :=
  Error "SMS sending failed:" e ::
  (if bool_decide (exn_status e = Some 429)
   then [Log ("Rate limit hit for " ++ phone_ ++ ". OTP: " ++ otp
              ++ " (check console for development)");
         Log "Please wait before requesting another code or upgrade your Twilio plan"]
   else [Log ("OTP for " ++ phone_ ++ ": " ++ otp ++ " (SMS failed, using console log)")]).

(** The outcome of [jwt.verify] on the request's bearer token in a world. *)
Definition token_check (req : Request) (w : World) : Exn + Value :=
  jwt_verify (default "" (bearer_token req))
             (env_or "JWT_SECRET" "your-secret-key" w) (clock w).

Definition token_fails (req : Request) (w : World) : bool :=
  match token_check req w with
  | inl _ => true
  | inr _ => false
  end.

(** The validation chain in front of an endpoint. *)
Definition endpoint_checks (e : Endpoint) : list Check :=
  match e with
  | UpdateName => update_name_checks
  | AuthProfile => []
  | ProfileRoute checks _ => checks
  end.

Definition profile_not_found : Response :=
  mkResponse 400 (VObj [("error", VStr "Creator profile not found")]).
End Handlers.

(** ** A concrete runtime and concrete worlds, for running the handlers *)

Module Fixture.

Definition q_is_int (q : Q) : bool := Z.eqb (Zpos (Qden (Qred q))) 1.

Definition passes (v : Validator) (x : Value) : bool :=
  match v, x with
  | isMobilePhone, VStr (String "+" rest) =>
      all_digits rest && (7 <=? String.length rest)%nat
  | notEmpty, VStr s => negb (String.eqb s "")
  | notEmpty, VNum _ => true
  | isLength lo hi, VStr s =>
      (lo <=? Z.of_nat (String.length s)) && (Z.of_nat (String.length s) <=? hi)
  | optional_isString, VUndefined => true
  | optional_isString, VStr _ => true
  | optional, _ => true
  | isIn allowed, VStr s => existsb (String.eqb s) allowed
  | isInt lo, VNum q => q_is_int q && Qle_bool (inject_Z lo) q
  | isFloat lo, VNum q => Qle_bool (inject_Z lo) q
  | _, _ => false
  end.

Definition validation_error (c : Check) (v : Value) : Value :=
  VObj [("type", VStr "field"); ("value", v); ("msg", VStr (withMessage c));
        ("path", VStr (path c)); ("location", VStr "body")].

(** Tokens of the fixture: [<secret>|<userId>]; [expired|...] stands for
    a token past its expiry. *)
Definition jwt_sign (payload : Value) (secret expiresIn : string) : string :=
  secret ++ "|" ++ match get payload "userId" with VStr s => s | _ => "" end.

Fixpoint contains_bar (s : string) : bool :=
  match s with
  | EmptyString => false
  | String c s' => Ascii.eqb c "|" || contains_bar s'
  end.

Definition jwt_verify (token secret : string) (now : Z) : Exn + Value :=
  if String.prefix "expired|" token then
    inl (mkExn "TokenExpiredError" "jwt expired" None)
  else if String.prefix (secret ++ "|") token then
    inr (VObj [("userId", VStr (drop_chars (String.length secret + 1) token))])
  else if contains_bar token then
    inl (mkExn "JsonWebTokenError" "invalid signature" None)
  else inl (mkExn "JsonWebTokenError" "jwt malformed" None).

Fixpoint parse_digits (s : string) (acc : Z) : option Z :=
  match s with
  | EmptyString => Some acc
  | String c s' =>
      if is_digit c then parse_digits s' (10 * acc + Z.of_nat (nat_of_ascii c) - 48)
      else None
  end.

Definition BigInt (v : Value) : Exn + Z :=
  match v with
  | VBigInt n => inr n
  | VStr s =>
      match parse_digits s 0 with
      | Some n => inr n
      | None => inl (mkExn "SyntaxError" "Cannot convert to a BigInt" None)
      end
  | VNum q => if q_is_int q then inr (Qnum (Qred q))
              else inl (mkExn "RangeError" "not an integer" None)
  | _ => inl (mkExn "TypeError" "Cannot convert to a BigInt" None)
  end.

Definition ToString (v : Value) : string :=
  match v with
  | VStr s => s
  | VBigInt n => Z_toString n
  | VUndefined => "undefined"
  | VNull => "null"
  | VBool true => "true"
  | VBool false => "false"
  | _ => "[object]"
  end.

Definition upper_char (c : ascii) : ascii :=
  let k := nat_of_ascii c in
  if (97 <=? k)%nat && (k <=? 122)%nat then ascii_of_nat (k - 32) else c.

Fixpoint toUpperCase (s : string) : string :=
  match s with
  | EmptyString => EmptyString
  | String c s' => String (upper_char c) (toUpperCase s')
  end.

(** A bigint or an integral number is taken for a BigInt column. *)
Definition BigInt_argument (v : Value) : Exn + Z :=
  match v with
  | VBigInt n => inr n
  | VNum q => if q_is_int q then inr (Qnum (Qred q)) else inl PrismaClientValidationError
  | _ => inl PrismaClientValidationError
  end.

#[export] Instance runtime : Runtime :=
  Build_Runtime passes validation_error BigInt_argument jwt_sign jwt_verify toUpperCase
                (fun v => v) (fun v => v) ToString BigInt.

Definition no_env : gmap string string := ∅.


Definition empty_db : Db := mkDb [] [] [] [] [] [].

(** Twilio answering every check with one status, or failing every call. *)
Definition twilio_says (st : string) : list TwilioCall -> TwilioCall -> Exn + string :=
  fun _ _ => inr st.


Definition world (e : gmap string string) (now : Z) (d : Db)
    (tw : list TwilioCall -> TwilioCall -> Exn + string) : World :=
  mkWorld e now d (fun _ => 2 ^ 1073) 0 (fun _ => "ab12") 0 tw [] [].

Definition phone : string := "+15551234567".

Definition send_request : Request :=
  mkRequest None (VObj [("phone", VStr phone)]).

Definition verify_request (code : string) : Request :=
  mkRequest None (VObj [("phone", VStr phone); ("code", VStr code)]).

(** A row for [phone], created at [t], valid for ten minutes. *)
Definition row (id_ : Z) (code : string) (t : Z) : PhoneVerification.t :=
  PhoneVerification.mk id_ phone code "ab12" t (t + 600000) None.

Definition db_with (rows : list PhoneVerification.t) : Db := mkDb rows [] [] [] [] [].

(** Worlds for the phone flow, at time 100 s unless said otherwise. *)
Definition one_code : World :=
  world no_env 100000 (db_with [row 1 "482913" 0]) (twilio_says "approved").

(** Two codes were issued 61 s apart and came out equal. *)
Definition same_code_twice : World :=
  world no_env 100000 (db_with [row 1 "482913" 0; row 2 "482913" 61000])
        (twilio_says "approved").

Definition expired_code : World :=
  world no_env 700000 (db_with [row 1 "482913" 0]) (twilio_says "approved").


Definition fresh (e : gmap string string)
    (tw : list TwilioCall -> TwilioCall -> Exn + string) : World :=
  world e 100000 empty_db tw.

(** Requests of user 7, who has an account but no creator profile. *)
Definition user7 : User.t :=
  User.mk 7 None (Some phone) (Some "Ann") None None false true "creator" "active" None 0.

Definition db_user7 : Db := mkDb [] [user7] [] [] [] [].

Definition bearer (token : string) (b : Value) : Request :=
  mkRequest (Some ("Bearer " ++ token)) b.

Definition name_body : Value := VObj [("name", VStr "Ann")].

Definition package_body : Value :=
  VObj [("platform", VStr "instagram"); ("contentType", VStr "reel");
        ("quantity", VNum (inject_Z 3)); ("revisions", VNum (inject_Z 1));
        ("duration1", VStr "30"); ("duration2", VStr "seconds");
        ("price", VNum (49999 # 100))].

Definition portfolio_body : Value :=
  VObj [("mediaUrl", VStr "https://cdn.example/a.png"); ("mediaType", VStr "image");
        ("fileName", VStr "a.png"); ("fileSize", VNum (inject_Z 2048))].

Definition kyc_body : Value :=
  VObj [("documentType", VStr "pan"); ("frontImageUrl", VStr "https://cdn.example/f.png");
        ("backImageUrl", VStr "https://cdn.example/b.png")].

(** Tokens that fail verification: expired, malformed, wrong secret. *)
Definition bad_tokens : list string := ["expired|7"; "garbage"; "other-secret|7"].

Definition good_token : string := "your-secret-key|7".

End Fixture.

(** ** How the tables may change

    The steps a request can take on the [phoneVerification] and [user]
    tables, and the invariants the steps keep. *)

(** What a PhoneVerification row is issued with. *)
Definition issued_part (r : PhoneVerification.t) : Z * string * string * string * Z * Z :=
  (PhoneVerification.id r, PhoneVerification.phone r, PhoneVerification.code r,
   PhoneVerification.token r, PhoneVerification.created_at r,
   PhoneVerification.expires_at r).

(** A verification request keeps the rows or stamps a pending one. *)
Inductive verification_step (now : Z) (rows : list PhoneVerification.t) :
    list PhoneVerification.t -> Prop :=
| rows_kept : verification_step now rows rows
| row_marked (v : PhoneVerification.t) :
    In v rows -> PhoneVerification.verified_at v = None ->
    verification_step now rows (mark_verified (PhoneVerification.id v) now rows).

Definition has_phone (phone_ : string) (u : User.t) : bool :=
  bool_decide (User.phone u = Some phone_).

(** A verification request keeps the users, appends one for a phone no
    user has, or updates the users carrying the id of one that has it. *)
Inductive login_step (now : Z) (users : list User.t) : list User.t -> Prop :=
| users_kept : login_step now users users
| user_created (phone_ name_ : string) :
    List.find (has_phone phone_) users = None ->
    login_step now users
      (users ++ [new_phone_user phone_ name_ (next_id (map User.id users))])
| user_logged_in (u0 : User.t) (name_ : option string) :
    In u0 users ->
    login_step now users
      (map (fun u => if User.id u =? User.id u0 then login_phone_user now name_ u else u)
           users).

Definition users_of_phone (phone_ : string) (users : list User.t) : list User.t :=
  List.filter (has_phone phone_) users.

(** At most one user per phone number. *)
Definition one_user_per_phone (users : list User.t) : Prop :=
  forall phone_, (length (users_of_phone phone_ users) <= 1)%nat.

(** The tables of the creator profile and what hangs off it. *)
Definition profile_tables (d : Db) :
    list CreatorProfile.t * list Package.t * list PortfolioItem.t * list KYC.t :=
  (creatorProfile d, package d, portfolioItem d, kYC d).

(** The tail of [verify-phone-code], once the code is accepted. *)
Definition verify_tail_prog {RT : Runtime} (phone fullName : Value) : M unit :=
  (let* user := find_or_create_phone_user phone fullName in
   let* token := generateToken (User.id user) in
   respond (verify_ok user token))%js.

(** What a run of [verify-phone-code] may do: it always answers, with 200, 400
    or 500; it takes at most one step on each of the two tables it
    writes; a 200 is the answer of the tail. *)
Definition verify_outcome {RT : Runtime} (req : Request) (w : World) (resp : Response)
    (w' : World) : Prop :=
  verification_step (clock w) (phoneVerification (db w)) (phoneVerification (db w'))
  /\ login_step (clock w) (user (db w)) (user (db w'))
  /\ profile_tables (db w') = profile_tables (db w)
  /\ (status resp = 200 \/ status resp = 400 \/ status resp = 500)
  /\ (status resp = 400 -> db w' = db w)
  /\ (status resp = 500 -> user (db w') = user (db w))
  /\ (status resp = 200 ->
      exists w2,
        user (db w2) = user (db w) /\ clock w2 = clock w /\ env w2 = env w
        /\ verify_tail_prog (get (req_body req) "phone") (get (req_body req) "fullName") w2
           = (Return resp, w')).

(** [fullName || 'User'], and the name an update takes from [fullName]. *)
Definition name_or_default (fullName : Value) : Value :=
  if truthy fullName then fullName else VStr "User".

Definition supplied_name (fullName : Value) : option string :=
  match fullName with
  | VStr s => if String.eqb s "" then None else Some s
  | _ => None
  end.

(** What a run of [send-phone-verification-code] may do: it always
    answers; answered 200 it has stored the row of its code and nothing
    else, answered otherwise (400, 429 or 500) it has stored nothing. *)
Definition send_outcome (req : Request) (w : World) (resp : Response) (w' : World) : Prop :=
  (status resp = 200
   /\ exists phone_,
        get (req_body req) "phone" = VStr phone_
        /\ db w' = with_phoneVerification
                     (phoneVerification (db w) ++ [issued_row w phone_]) (db w))
  \/ ((status resp = 400 \/ status resp = 429 \/ status resp = 500) /\ db w' = db w).

(** The rows of the second table continue those of the first: none is
    dropped, none changes what it was issued with. *)
Definition log_continues (rows rows' : list PhoneVerification.t) : Prop :=
  exists added, map issued_part rows' = map issued_part (rows ++ added).

(** A string without a space character: such are the tokens jsonwebtoken
    issues. *)
Fixpoint no_space (s : string) : bool :=
  match s with
  | EmptyString => true
  | String c s' => negb (Ascii.eqb c " ") && no_space s'
  end.

Definition with_authorization (h : option string) (req : Request) : Request :=
  mkRequest h (req_body req).

Definition no_token_provided : Response :=
  mkResponse 401 (VObj [("error", VStr "No token provided")]).

Definition invalid_token : Response :=
  mkResponse 401 (VObj [("error", VStr "Invalid token")]).




(** A computation keeps a part of the world: whatever it does, the part
    is afterwards what it was. *)
Definition keeps {S A} (part : World -> S) (m : M A) : Prop :=
  forall w, part (snd (m w)) = part w.

(** What the phone handlers work on besides the users: the provider's call
    log, the verification rows, the random sources. *)
Definition phone_flow_state (w : World) :
    list TwilioCall * list PhoneVerification.t * nat * nat :=
  (twilio_calls w, phoneVerification (db w), math_random_drawn w, random_hex_drawn w).

(** ** POST /google-mobile

    google-auth-library checks the id token.  What the Prisma client does
    with a payload field that is no string depends on the schema, which the
    handler does not show: both are parameters. *)

Class GoogleAuth := {
  (* [googleClient.verifyIdToken({ idToken, audience })], then
     [ticket.getPayload()] *)
  verifyIdToken : Value -> option string -> World -> Exn + Value;
  (* [where: { OR: [{ email }, { auth_provider: 'google', email }] }] for
     an [email] that is no string *)
  where_email_other : Value -> Exn + (User.t -> bool);
  (* [data: { column: v }] for a [v] that is no string: the new value of
     the column, from the old one *)
  data_other : string -> Value -> Exn + (option string -> option string)
}.

Section GoogleMobile.
Context {RT : Runtime} {GA : GoogleAuth}.

Definition google_checks : list Check :=
  [body_check "idToken" notEmpty "ID token is required"].

Definition raise {A} (r : Exn + A) : M A :=
  match r with
  | inl e => throw e
  | inr a => ret a
  end.

(** Verify Google token *)
Definition verify_google_token (idToken : Value) : M Value :=
  fun w => raise (verifyIdToken idToken (env w !! "GOOGLE_CLIENT_ID") w) w.

(** [const { email, name, picture, sub: googleId } = payload] *)
Definition destructure (payload : Value) : M unit :=
  match payload with
  | VUndefined =>
      throw (TypeError "Cannot destructure property 'email' of 'payload' as it is undefined.")
  | VNull =>
      throw (TypeError "Cannot destructure property 'email' of 'payload' as it is null.")
  | _ => ret tt
  end.

Definition has_email (email_ : string) (u : User.t) : bool :=
  bool_decide (User.email u = Some email_).

Definition google_where (email : Value) : Exn + (User.t -> bool) :=
  match email with
  | VStr e =>
      inr (fun u => has_email e u
                    || (bool_decide (User.auth_provider u = Some "google") && has_email e u))
  | v => where_email_other v
  end.

Definition user_findFirst (where_ : Exn + (User.t -> bool)) : M (option User.t) :=
  let* f := raise where_ in
  gets (fun w => List.find f (user (db w))).

(** A nullable String column set to a payload field. *)
Definition column (name_ : string) (v : Value) : M (option string -> option string) :=
  match v with
  | VStr s => ret (fun _ => Some s)
  | v => raise (data_other name_ v)
  end.

(** As for [new_phone_user], the columns a [create] leaves out take their
    defaults: unset columns are null, flags are false and the onboarding
    step is 0. *)
Definition new_google_user (email_ name_ picture_ : option string -> option string)
    (id_ : Z) : User.t :=
  User.mk id_ (email_ None) None (name_ None) (picture_ None) (Some "google") true false
          "creator" "active" None 0.

Definition login_google_user (now : Z) (picture_ : option string -> option string)
    (u : User.t) : User.t :=
  User.mk (User.id u) (User.email u) (User.phone u) (User.name u)
          (picture_ (User.profile_image_url u)) (User.auth_provider u) true
          (User.phone_verified u) (User.user_type u) (User.status u) (Some now)
          (User.onboarding_step u).

(** Check if user exists; create or update. *)
Definition find_or_create_google_user (payload : Value) : M User.t :=
  let email := get payload "email" in
  let name_ := get payload "name" in
  let picture := get payload "picture" in
  let* found := user_findFirst (google_where email) in
  match found with
  | None =>
      (* Create new user *)
      let* email_c := column "email" email in
      let* name_c := column "name" name_ in
      let* picture_c := column "profile_image_url" picture in
      prisma.user.create (new_google_user email_c name_c picture_c)
  | Some u =>
      (* Update existing user *)
      let* now := Date_now in
      let* picture_c := column "profile_image_url" picture in
      prisma.user.update (User.id u) (login_google_user now picture_c)
  end.

Definition google_ok (user : User.t) (token : string) : Response :=
  mkResponse 200
    (VObj [("success", VBool true);
           ("message", str "Google authentication successful");
           ("user", VObj [("id", str (Z_toString (User.id user)));
                          ("email", opt_str (User.email user));
                          ("name", opt_str (User.name user));
                          ("profileImage", opt_str (User.profile_image_url user));
                          ("isVerified", VBool (User.email_verified user))]);
           ("token", str token)]).

Definition google_failed (error : Exn) : Response :=
  mkResponse 500 (VObj [("error", str "Google authentication failed");
                        ("message", str (exn_message error))]).

Definition google_mobile (req : Request) : M unit :=
  validateRequest google_checks req
  (try_catch
     (let idToken := get (req_body req) "idToken" in
      let* payload := verify_google_token idToken in
      destructure payload ;;
      let* user := find_or_create_google_user payload in
      (* Generate JWT token *)
      let* token := generateToken (User.id user) in
      respond (google_ok user token))
     (fun error =>
        console_error "Google auth error:" error ;;
        respond (google_failed error))).

End GoogleMobile.

(** At most one user per e-mail address. *)
Definition users_of_email (email_ : string) (users : list User.t) : list User.t :=
  List.filter (has_email email_) users.

Definition one_user_per_email (users : list User.t) : Prop :=
  forall email_, (length (users_of_email email_ users) <= 1)%nat.

(** A Google login keeps the users, appends one, or updates the users
    carrying the id of one of them, leaving e-mail, phone, name and
    provider as they are. *)
Inductive google_step (now : Z) (users : list User.t) : list User.t -> Prop :=
| google_users_kept : google_step now users users
| google_user_created (email_ name_ picture_ : option string -> option string) :
    google_step now users
      (users ++ [new_google_user email_ name_ picture_ (next_id (map User.id users))])
| google_user_logged_in (u0 : User.t) (picture_ : option string -> option string) :
    In u0 users ->
    google_step now users
      (map (fun u => if User.id u =? User.id u0 then login_google_user now picture_ u else u)
           users).

(** What the id token says, for the request and the world. *)
Definition google_payload {GA : GoogleAuth} (req : Request) (w : World) : Exn + Value :=
  verifyIdToken (get (req_body req) "idToken") (env w !! "GOOGLE_CLIENT_ID") w.

(** The statements of [google-mobile] inside [try]. *)
Definition google_try {RT : Runtime} {GA : GoogleAuth} (req : Request) : M unit :=
  (let* payload := verify_google_token (get (req_body req) "idToken") in
   destructure payload ;;
   let* user := find_or_create_google_user payload in
   let* token := generateToken (User.id user) in
   respond (google_ok user token))%js.

(** The step of a login whose payload carries the e-mail address [e]: the
    users with the id of one of them are updated, or no user has [e] and
    one with [e] is appended. *)
Definition google_email_step (now : Z) (e : string) (users users' : list User.t) : Prop :=
  (exists u0 picture_,
     In u0 users
     /\ users' = map (fun u => if User.id u =? User.id u0
                               then login_google_user now picture_ u else u) users)
  \/ (List.find (has_email e) users = None
      /\ exists name_ picture_,
           users' = (users ++ [new_google_user (fun _ => Some e) name_ picture_
                                              (next_id (map User.id users))])%list).

(** What Google login reads and writes of a user, the login time apart. *)
Definition google_part (u : User.t) : Z * option string * option string * bool * option string :=
  (User.id u, User.email u, User.auth_provider u, User.email_verified u,
   User.profile_image_url u).

(** ** Further worlds: Google accounts, a client that takes string keys *)

Module Scenarios.
Import Fixture.

(** Id tokens of the fixture: two that Google accepts, the rest refused. *)
Definition payload_of (email_ name_ picture_ sub : string) : Value :=
  VObj [("email", VStr email_); ("name", VStr name_); ("picture", VStr picture_);
        ("sub", VStr sub)].

Definition ann_payload : Value :=
  payload_of "ann@example.com" "Ann G" "https://cdn.example/ann.png" "1001".

Definition bob_payload : Value :=
  payload_of "bob@example.com" "Bob" "https://cdn.example/bob.png" "1002".

Definition verifyIdToken (idToken : Value) (audience : option string) (w : World) :
    Exn + Value :=
  match idToken with
  | VStr s =>
      if String.eqb s "ann-id-token" then inr ann_payload
      else if String.eqb s "bob-id-token" then inr bob_payload
      else inl (mkExn "Error" "Wrong number of segments in token" None)
  | _ => inl (mkExn "Error" "The verifyIdToken method requires an ID Token" None)
  end.

Definition where_email_other (v : Value) : Exn + (User.t -> bool) :=
  inl PrismaClientValidationError.

Definition data_other (column_ : string) (v : Value) :
    Exn + (option string -> option string) :=
  match v with
  | VUndefined => inr (fun old => old)
  | VNull => inr (fun _ => None)
  | _ => inl PrismaClientValidationError
  end.

#[export] Instance google : GoogleAuth :=
  Build_GoogleAuth verifyIdToken where_email_other data_other.


Definition google_request (idToken : string) : Request :=
  mkRequest None (VObj [("idToken", VStr idToken)]).

(** Ann registered by phone and has since given her e-mail address. *)
Definition ann : User.t :=
  User.mk 7 (Some "ann@example.com") (Some phone) (Some "Ann") None None false true
          "creator" "active" None 0.

Definition ann_world : World :=
  world no_env 100000 (mkDb [] [ann] [] [] [] []) (twilio_says "approved").

(** User 7 with creator profile 3. *)
Definition creator_world : World :=
  world no_env 100000 (mkDb [] [user7] [CreatorProfile.mk 3 7] [] [] [])
        (twilio_says "approved").


(** The run that accepts the code of [one_code]. *)
Definition code_accepted : Completion unit * World :=
  verify_phone_code (RT := runtime) (verify_request "482913") one_code.

Definition accepted_answer : Response :=
  default (mkResponse 0 VNull) (sent code_accepted).

End Scenarios.

(** * Properties *)

(** ** Stepping through the monad *)

Section Steps.
Context {A B : Type}.

Lemma bind_normal (m : M A) (k : A -> M B) w a w' :
  m w = (Normal a, w') -> bind m k w = k a w'.
Proof. intros E. unfold bind. now rewrite E. Qed.

Lemma bind_return (m : M A) (k : A -> M B) w r w' :
  m w = (Return r, w') -> bind m k w = (Return r, w').
Proof. intros E. unfold bind. now rewrite E. Qed.

Lemma bind_throw (m : M A) (k : A -> M B) w e w' :
  m w = (Throw e, w') -> bind m k w = (Throw e, w').
Proof. intros E. unfold bind. now rewrite E. Qed.

Lemma try_catch_normal (m : M A) h w a w' :
  m w = (Normal a, w') -> try_catch m h w = (Normal a, w').
Proof. intros E. unfold try_catch. now rewrite E. Qed.

Lemma try_catch_return (m : M A) h w r w' :
  m w = (Return r, w') -> try_catch m h w = (Return r, w').
Proof. intros E. unfold try_catch. now rewrite E. Qed.

Lemma try_catch_throw (m : M A) h w e w' :
  m w = (Throw e, w') -> try_catch m h w = h e w'.
Proof. intros E. unfold try_catch. now rewrite E. Qed.

End Steps.

(** One step of a computation whose next statement completes normally. *)
Ltac step :=
  erewrite bind_normal by (first [reflexivity | cbn; reflexivity]); cbv beta.

Lemma most_recent_in (rows : list PhoneVerification.t) r :
  most_recent rows = Some r -> In r rows.
Proof.
  revert r. induction rows as [|x rest IH]; simpl; intros r; [discriminate|].
  destruct (most_recent rest) as [r'|].
  - destruct (_ <=? _); intros [= <-]; [now left | right; now apply IH].
  - intros [= <-]. now left.
Qed.

Section HandlerFacts.
Context {RT : Runtime}.

Lemma validateRequest_pass checks req next :
  validationResult checks req = [] -> validateRequest checks req next = next.
Proof. intros E. unfold validateRequest. now rewrite E. Qed.

Lemma pending_for_true phone_ code_ now r :
  pending_for phone_ code_ now r = true <->
  PhoneVerification.phone r = phone_ /\ PhoneVerification.code r = code_
  /\ now < PhoneVerification.expires_at r /\ PhoneVerification.verified_at r = None.
Proof.
  unfold pending_for. rewrite !andb_true_iff, !String.eqb_eq, Z.ltb_lt, bool_decide_eq_true.
  tauto.
Qed.

(** The database fallback with no pending row: the request is refused and
    nothing changes. *)
Lemma database_verification_none phone_ code_ w :
  List.filter (pending_for phone_ code_ (clock w)) (phoneVerification (db w)) = [] ->
  database_verification (VStr phone_) (VStr code_) w = (Return invalid_or_expired, w).
Proof.
  intros E. unfold database_verification, as_String, bind, ret, Date_now, gets,
    prisma.phoneVerification.findFirst_orderBy_created_at_desc, respond.
  simpl. now rewrite E.
Qed.

End HandlerFacts.
(** ** Facts about the rounding model *)

Module F64Facts.
Import F64.













End F64Facts.

(** ** The blocks of [verify-phone-code] *)

Section VerifyBlocks.
Context {RT : Runtime}.

Lemma twilio_check_unconfigured phone code w :
  twilio_configured w = false -> twilio_check phone code w = (Normal false, w).
Proof.
  intros Hc. unfold twilio_check, bind, gets. now rewrite Hc.
Qed.

Lemma twilio_check_approved phone code w :
  twilio_configured w = true ->
  twilio_answer w (check_call w phone code) = inr "approved" ->
  twilio_check phone code w
  = (Normal true, with_twilio_calls (twilio_calls w ++ [check_call w phone code]) w).
Proof.
  intros Hc Ha. unfold twilio_answer, check_call in *.
  unfold twilio_check, bind, gets, try_catch, twilio_request.
  rewrite Hc. simpl. now rewrite Ha.
Qed.

Lemma twilio_check_denied phone code w st :
  twilio_configured w = true ->
  twilio_answer w (check_call w phone code) = inr st ->
  st <> "approved" ->
  twilio_check phone code w
  = (Return invalid_code,
     with_twilio_calls (twilio_calls w ++ [check_call w phone code]) w).
Proof.
  intros Hc Ha Hst. unfold twilio_answer, check_call in *.
  unfold twilio_check, bind, gets, try_catch, twilio_request.
  rewrite Hc. simpl. rewrite Ha.
  destruct (String.eqb_spec st "approved") as [->|_]; [congruence|reflexivity].
Qed.

Lemma twilio_check_error phone code w e :
  twilio_configured w = true ->
  twilio_answer w (check_call w phone code) = inl e ->
  twilio_check phone code w
  = (Normal false,
     with_console (console w ++ check_failure_lines e)
       (with_twilio_calls (twilio_calls w ++ [check_call w phone code]) w)).
Proof.
  intros Hc Ha. unfold twilio_answer, check_call in *.
  unfold twilio_check, bind, gets, try_catch, twilio_request.
  rewrite Hc. simpl. rewrite Ha.
  unfold check_failure_lines, console_error, console_log, modify, with_console, ret.
  simpl. destruct (bool_decide (exn_status e = Some 429)); simpl;
    now rewrite <- app_assoc.
Qed.

(** The database fallback with a pending row: the most recent one is
    stamped with the current time and the handler goes on. *)
Lemma database_verification_some phone_ code_ w v :
  most_recent (List.filter (pending_for phone_ code_ (clock w))
                           (phoneVerification (db w))) = Some v ->
  database_verification (VStr phone_) (VStr code_) w
  = (Normal tt,
     with_db (with_phoneVerification
                (mark_verified (PhoneVerification.id v) (clock w)
                               (phoneVerification (db w))) (db w)) w).
Proof.
  intros E. unfold database_verification, as_String, bind, ret, Date_now, gets,
    prisma.phoneVerification.findFirst_orderBy_created_at_desc, respond.
  simpl. rewrite E. unfold prisma.phoneVerification.update_verified_at.
  assert (Hin : In v (phoneVerification (db w))).
  { apply most_recent_in in E. apply filter_In in E. tauto. }
  destruct (List.find _ (phoneVerification (db w))) as [r|] eqn:F.
  - reflexivity.
  - exfalso. apply (find_none _ _ F) in Hin. simpl in Hin.
    now rewrite Z.eqb_refl in Hin.
Qed.

(** Finding or creating the user always completes and touches the [user]
    table only; the user it yields is determined by that table and the
    clock, and is marked phone-verified. *)
Lemma find_or_create_phone_user_total phone_ fullName users now :
  optional_string fullName ->
  exists u us,
    In u us /\ User.phone_verified u = true /\
    forall w, user (db w) = users -> clock w = now ->
      find_or_create_phone_user (VStr phone_) fullName w
      = (Normal u, with_db (with_user us (db w)) w).
Proof.
  intros Hfn.
  destruct (List.find (fun x => bool_decide (User.phone x = Some phone_)) users)
    as [u0|] eqn:F.
  - assert (Hin : In u0 users) by (apply find_some in F; tauto).
    set (n := if truthy fullName
              then match fullName with VStr s => Some s | _ => None end else None).
    destruct (List.find (fun u => User.id u =? User.id u0) users) as [u1|] eqn:G.
    2:{ exfalso. apply (find_none _ _ G) in Hin. simpl in Hin.
        now rewrite Z.eqb_refl in Hin. }
    exists (login_phone_user now n u1),
           (map (fun u => if User.id u =? User.id u0 then login_phone_user now n u else u)
                users).
    split; [|split; [reflexivity|]].
    + apply in_map_iff. exists u1. apply find_some in G as [? ->]. tauto.
    + intros w Hu Hc.
      unfold find_or_create_phone_user, as_String, bind, ret, gets,
        prisma.user.findUnique_phone, Date_now, prisma.user.update. simpl.
      rewrite Hu, F, Hc. subst n.
      destruct Hfn as [->|[s ->]]; simpl.
      * now rewrite Hu, G.
      * destruct (negb (String.eqb s "")); simpl; now rewrite Hu, G.
  - set (name_ := if truthy fullName
                  then match fullName with VStr s => s | _ => "User" end else "User").
    exists (new_phone_user phone_ name_ (next_id (map User.id users))),
           (users ++ [new_phone_user phone_ name_ (next_id (map User.id users))])%list.
    split; [|split; [reflexivity|]].
    + apply in_or_app. right. now left.
    + intros w Hu Hc.
      unfold find_or_create_phone_user, as_String, bind, ret, gets,
        prisma.user.findUnique_phone, prisma.user.create. simpl.
      rewrite Hu, F. subst name_.
      destruct Hfn as [->|[s ->]]; simpl.
      * now rewrite Hu.
      * destruct (negb (String.eqb s "")); simpl; now rewrite Hu.
Qed.

(** The tail of the handler, once the code is accepted: user, token,
    response. *)
Lemma verify_tail phone_ fullName users now :
  optional_string fullName ->
  exists u us,
    In u us /\ User.phone_verified u = true /\
    forall w, user (db w) = users -> clock w = now ->
      (let* user := find_or_create_phone_user (VStr phone_) fullName in
       let* token := generateToken (User.id user) in
       (respond (verify_ok user token) : M unit)) w
      = (Return (verify_ok u (session_token w (User.id u))),
         with_db (with_user us (db w)) w).
Proof.
  intros Hfn.
  destruct (find_or_create_phone_user_total phone_ fullName users now Hfn)
    as (u & us & Hin & Hv & E).
  exists u, us. split; [exact Hin|]. split; [exact Hv|].
  intros w Hu Hc. erewrite bind_normal by (apply E; assumption).
  reflexivity.
Qed.

End VerifyBlocks.

Lemma filter_nil {T} (f : T -> bool) (l : list T) :
  (forall x, In x l -> f x = false) -> List.filter f l = [].
Proof.
  induction l as [|x l IH]; intros H; simpl; [reflexivity|].
  rewrite (H x (or_introl eq_refl)). apply IH. intros y Hy. apply H. now right.
Qed.

(** ** Claims about [verify-phone-code] *)

Section VerifyClaims.
Context {RT : Runtime}.

(** C4. With the provider not configured, a submitted code whose rows for
    (phone, code) have all expired is rejected with the
    invalid-or-expired error, although the code value equals the stored
    one; nothing is changed. *)
Theorem verify_expired_code_rejected (req : Request) (w : World) (phone_ code_ : string) :
  validationResult verify_checks req = [] ->
  get (req_body req) "phone" = VStr phone_ ->
  get (req_body req) "code" = VStr code_ ->
  twilio_configured w = false ->
  (forall r, In r (phoneVerification (db w)) ->
             PhoneVerification.phone r = phone_ ->
             PhoneVerification.code r = code_ ->
             PhoneVerification.expires_at r < clock w) ->
  verify_phone_code req w = (Return invalid_or_expired, w).
Proof.
  intros Hval Hp Hc Hcfg Hexp.
  unfold verify_phone_code. rewrite validateRequest_pass by exact Hval.
  rewrite Hp, Hc. apply try_catch_return.
  erewrite bind_normal by (apply twilio_check_unconfigured; exact Hcfg).
  cbn [negb]. apply bind_return. apply database_verification_none.
  apply filter_nil. intros r Hin.
  destruct (pending_for phone_ code_ (clock w) r) eqn:E; [|reflexivity].
  apply pending_for_true in E as (E1 & E2 & E3 & _).
  specialize (Hexp r Hin E1 E2). lia.
Qed.





End VerifyClaims.

(** ** The blocks of [send-phone-verification-code] *)

Section SendBlocks.
Context {RT : Runtime}.

Lemma dispatch_sms_unconfigured phone phone_s otp w :
  twilio_configured w = false ->
  dispatch_sms phone phone_s otp w
  = (Normal false,
     with_console (console w ++ [Log ("OTP for " ++ phone_s ++ ": " ++ otp
                                      ++ " (Twilio not configured)")]) w).
Proof.
  intros Hc. unfold dispatch_sms, bind, gets. now rewrite Hc.
Qed.

Lemma dispatch_sms_sent phone phone_s otp w st :
  twilio_configured w = true ->
  twilio_answer w (start_call w phone) = inr st ->
  dispatch_sms phone phone_s otp w
  = (Normal true,
     with_console (console w ++ [Log ("Verification SMS sent to " ++ phone_s)])
       (with_twilio_calls (twilio_calls w ++ [start_call w phone]) w)).
Proof.
  intros Hc Ha. unfold twilio_answer, start_call in *.
  unfold dispatch_sms, bind, gets, try_catch, twilio_request.
  rewrite Hc. simpl. now rewrite Ha.
Qed.

Lemma dispatch_sms_failed phone phone_s otp w e :
  twilio_configured w = true ->
  twilio_answer w (start_call w phone) = inl e ->
  dispatch_sms phone phone_s otp w
  = (Normal false,
     with_console (console w ++ sms_failure_lines e phone_s otp)
       (with_twilio_calls (twilio_calls w ++ [start_call w phone]) w)).
Proof.
  intros Hc Ha. unfold twilio_answer, start_call in *.
  unfold dispatch_sms, bind, gets, try_catch, twilio_request.
  rewrite Hc. simpl. rewrite Ha.
  unfold sms_failure_lines, console_error, console_log, modify, with_console, ret.
  simpl. destruct (bool_decide (exn_status e = Some 429)); simpl;
    rewrite <- ?app_assoc; reflexivity.
Qed.

(** Dispatch always completes normally and touches only the console and
    the record of provider calls. *)
Lemma dispatch_sms_total phone phone_s otp w :
  exists smsSent w',
    dispatch_sms phone phone_s otp w = (Normal smsSent, w')
    /\ db w' = db w /\ clock w' = clock w
    /\ math_random_drawn w' = math_random_drawn w
    /\ random_hex_drawn w' = random_hex_drawn w.
Proof.
  destruct (twilio_configured w) eqn:Hc.
  - destruct (twilio_answer w (start_call w phone)) as [e|st] eqn:Ha.
    + eexists _, _. split; [eapply dispatch_sms_failed; eassumption|]. now simpl.
    + eexists _, _. split; [eapply dispatch_sms_sent; eassumption|]. now simpl.
  - eexists _, _. split; [eapply dispatch_sms_unconfigured; eassumption|]. now simpl.
Qed.

(** A request that passes validation and the cooldown guard: the code is
    drawn, the row stored, dispatch attempted, and success reported. *)
Lemma send_accepted req w phone_ :
  validationResult send_checks req = [] ->
  get (req_body req) "phone" = VStr phone_ ->
  List.find (recent_for phone_ (clock w - 60 * 1000)) (phoneVerification (db w)) = None ->
  send_phone_verification_code req w
  = (Return (send_ok (VStr phone_)),
     snd (dispatch_sms (VStr phone_) phone_ (issued_otp w) (issue_code w phone_))).
Proof.
  intros Hval Hp Hfind.
  unfold send_phone_verification_code. rewrite validateRequest_pass by exact Hval.
  rewrite Hp. apply try_catch_return.
  cbv zeta. do 2 step.
  erewrite bind_normal
    by (unfold prisma.phoneVerification.findFirst, gets; now rewrite Hfind).
  cbv beta iota. do 4 step.
  destruct (dispatch_sms_total (VStr phone_) phone_ (issued_otp w) (issue_code w phone_))
    as (b & w' & E & _).
  change (bind (dispatch_sms (VStr phone_) phone_ (issued_otp w))
               (fun _ => respond (send_ok (VStr phone_)) : M unit) (issue_code w phone_)
          = (Return (send_ok (VStr phone_)),
             snd (dispatch_sms (VStr phone_) phone_ (issued_otp w) (issue_code w phone_)))).
  rewrite E. erewrite bind_normal by exact E. reflexivity.
Qed.

(** A request stopped by the cooldown guard. *)
Lemma send_cooled_down req w phone_ r :
  validationResult send_checks req = [] ->
  get (req_body req) "phone" = VStr phone_ ->
  List.find (recent_for phone_ (clock w - 60 * 1000)) (phoneVerification (db w)) = Some r ->
  send_phone_verification_code req w = (Return send_cooldown, w).
Proof.
  intros Hval Hp Hfind.
  unfold send_phone_verification_code. rewrite validateRequest_pass by exact Hval.
  rewrite Hp. apply try_catch_return.
  cbv zeta. do 2 step.
  erewrite bind_normal
    by (unfold prisma.phoneVerification.findFirst, gets; now rewrite Hfind).
  reflexivity.
Qed.

(** A request that was answered with success stored the row of its code. *)
Lemma send_ok_stored_row req w w' phone_ :
  validationResult send_checks req = [] ->
  get (req_body req) "phone" = VStr phone_ ->
  send_phone_verification_code req w = (Return (send_ok (VStr phone_)), w') ->
  phoneVerification (db w') = (phoneVerification (db w) ++ [issued_row w phone_])%list.
Proof.
  intros Hval Hp Hrun.
  destruct (List.find (recent_for phone_ (clock w - 60 * 1000)) (phoneVerification (db w)))
    as [r0|] eqn:F.
  - rewrite (send_cooled_down req w phone_ r0 Hval Hp F) in Hrun. discriminate.
  - rewrite (send_accepted req w phone_ Hval Hp F) in Hrun.
    destruct (dispatch_sms_total (VStr phone_) phone_ (issued_otp w) (issue_code w phone_))
      as (b & w1 & E & Hdb & _).
    rewrite E in Hrun. injection Hrun as <-. rewrite Hdb. reflexivity.
Qed.

End SendBlocks.

(** ** Claims about [send-phone-verification-code] *)

Section SendClaims.
Context {RT : Runtime}.




(** C10. A request answered 429 leaves the world as it found it: no row
    stored, no random number or token drawn, no provider call made,
    nothing logged. *)
Theorem send_code_cooldown_changes_nothing
    (req : Request) (w w' : World) (resp : Response) :
  send_phone_verification_code req w = (Return resp, w') ->
  status resp = 429 ->
  w' = w.
Proof.
  intros Hrun Hst.
  unfold send_phone_verification_code, validateRequest in Hrun.
  destruct (validationResult send_checks req) as [|err errs] eqn:Hval.
  2:{ injection Hrun as <- <-. discriminate. }
  fold (validateRequest send_checks req) in Hrun.
  destruct (get (req_body req) "phone") as [| |b|q|n|ms|phone_|items|fields] eqn:Hp;
    try (injection Hrun as <- <-; discriminate).
  destruct (List.find (recent_for phone_ (clock w - 60 * 1000)) (phoneVerification (db w)))
    as [r0|] eqn:F.
  - pose proof (send_cooled_down req w phone_ r0 Hval Hp F) as E.
    unfold send_phone_verification_code in E.
    rewrite validateRequest_pass, Hp in E by exact Hval.
    rewrite E in Hrun. now injection Hrun.
  - pose proof (send_accepted req w phone_ Hval Hp F) as E.
    unfold send_phone_verification_code in E.
    rewrite validateRequest_pass, Hp in E by exact Hval.
    rewrite E in Hrun. injection Hrun as <- <-. discriminate.
Qed.

End SendClaims.

(** ** The generated code *)





Section EveryCode.
Import F64.


End EveryCode.




(** ** Bearer tokens and the profile routes *)

Section TokenFacts.
Context {RT : Runtime}.

Lemma jwt_verify_env_fails req w e :
  token_check req w = inl e ->
  jwt_verify_env (default "" (bearer_token req)) w = (Throw e, w).
Proof. unfold token_check, jwt_verify_env. now intros ->. Qed.

Lemma jwt_verify_env_ok req w decoded :
  token_check req w = inr decoded ->
  jwt_verify_env (default "" (bearer_token req)) w = (Normal decoded, w).
Proof. unfold token_check, jwt_verify_env. now intros ->. Qed.

(** [authenticateToken] answers 401 for a token that fails verification,
    whatever the failure and whatever handler follows. *)
Lemma authenticateToken_invalid req next w e :
  no_token (bearer_token req) = false ->
  token_check req w = inl e ->
  authenticateToken req next w
  = (Return (mkResponse 401 (VObj [("error", VStr "Invalid token")])), w).
Proof.
  intros Ht He. unfold authenticateToken. cbv zeta. rewrite Ht.
  erewrite bind_normal.
  2:{ erewrite try_catch_throw; [reflexivity|].
      apply bind_throw. eapply jwt_verify_env_fails; eassumption. }
  reflexivity.
Qed.


Lemma authenticateToken_valid req next w decoded :
  no_token (bearer_token req) = false ->
  token_check req w = inr decoded ->
  authenticateToken req next w = next (get decoded "userId") w.
Proof.
  intros Ht Hd. unfold authenticateToken. cbv zeta. rewrite Ht.
  erewrite bind_normal.
  2:{ apply try_catch_normal.
      erewrite bind_normal by (eapply jwt_verify_env_ok; eassumption). reflexivity. }
  reflexivity.
Qed.

(** Every profile route: validation first, then 401 on a failing token. *)
Lemma profile_route_invalid_token checks handler req w e :
  validationResult checks req = [] ->
  no_token (bearer_token req) = false ->
  token_check req w = inl e ->
  authenticated_route checks handler req w
  = (Return (mkResponse 401 (VObj [("error", VStr "Invalid token")])), w).
Proof.
  intros Hval Ht He. unfold authenticated_route.
  rewrite validateRequest_pass by exact Hval.
  now apply authenticateToken_invalid with (e := e).
Qed.

(** The auth [profile] fetch: 401 as well, after logging the error. *)
Lemma auth_profile_invalid_token req w e :
  no_token (bearer_token req) = false ->
  token_check req w = inl e ->
  auth_profile req w
  = (Return (mkResponse 401 (VObj [("error", VStr "Invalid token")])),
     with_console (console w ++ [Error "Get profile error:" e]) w).
Proof.
  intros Ht He. unfold auth_profile. cbv zeta. rewrite Ht.
  erewrite try_catch_throw; [reflexivity|].
  apply bind_throw. eapply jwt_verify_env_fails; eassumption.
Qed.

(** [update-name]: the same failure lands in the handler's general
    [catch] and is answered 500. *)
Lemma update_name_invalid_token req w e :
  validationResult update_name_checks req = [] ->
  no_token (bearer_token req) = false ->
  token_check req w = inl e ->
  update_name req w
  = (Return (mkResponse 500 (VObj [("error", VStr "Failed to update name");
                                   ("message", VStr (exn_message e))])),
     with_console (console w ++ [Error "Update name error:" e]) w).
Proof.
  intros Hval Ht He. unfold update_name.
  rewrite validateRequest_pass by exact Hval. cbv zeta. rewrite Ht.
  erewrite try_catch_throw; [reflexivity|].
  apply bind_throw. eapply jwt_verify_env_fails; eassumption.
Qed.

(** C8. A request that passes validation and carries a token failing
    verification, whatever the failure, is answered 401 by the auth
    profile fetch and by every profile route; update-name answers it 500,
    its [catch] being the general one. *)
Theorem failing_token_status (e : Endpoint) (req : Request) (w : World) :
  validationResult (endpoint_checks e) req = [] ->
  no_token (bearer_token req) = false ->
  token_fails req w = true ->
  sent_status (serve e req w) = Some (match e with UpdateName => 500 | _ => 401 end).
Proof.
  intros Hval Ht Hf. unfold token_fails in Hf.
  destruct (token_check req w) as [err|] eqn:He; [clear Hf|discriminate].
  destruct e as [| |checks handler]; simpl in *.
  - now rewrite (update_name_invalid_token req w err Hval Ht He).
  - now rewrite (auth_profile_invalid_token req w err Ht He).
  - now rewrite (profile_route_invalid_token checks handler req w err Hval Ht He).
Qed.

(** A profile handler reached with a verified token whose user has no
    creator profile. *)
Lemma profile_route_valid checks handler req w decoded :
  validationResult checks req = [] ->
  no_token (bearer_token req) = false ->
  token_check req w = inr decoded ->
  authenticated_route checks handler req w = handler req (get decoded "userId") w.
Proof.
  intros Hval Ht Hd. unfold authenticated_route.
  rewrite validateRequest_pass by exact Hval.
  now apply authenticateToken_valid.
Qed.

(** C9, as the code has it.  An authenticated create-package,
    create-portfolio or submit-kyc request of a user without a
    CreatorProfile row is answered 400 with "Creator profile not found",
    and the world, every table included, is as before. *)
Theorem missing_creator_profile_is_400
    (req : Request) (w : World) (decoded : Value) (userId : Z) :
  no_token (bearer_token req) = false ->
  token_check req w = inr decoded ->
  BigInt (get decoded "userId") = inr userId ->
  List.find (fun p => CreatorProfile.user_id p =? userId) (creatorProfile (db w)) = None ->
  (validationResult create_package_checks req = [] ->
   create_package req w = (Return profile_not_found, w))
  /\ (validationResult create_portfolio_checks req = [] ->
      create_portfolio req w = (Return profile_not_found, w))
  /\ (validationResult submit_kyc_checks req = [] ->
      submit_kyc req w = (Return profile_not_found, w)).
Proof.
  intros Ht Hd Hid Hnone.
  repeat split; intros Hval.
  - unfold create_package. rewrite (profile_route_valid _ _ _ _ _ Hval Ht Hd).
    unfold create_package_handler. cbv zeta. apply try_catch_return.
    erewrite bind_normal by (unfold BigInt_M; rewrite Hid; reflexivity).
    erewrite bind_normal
      by (unfold prisma.creatorProfile.findUnique_user_id, gets; rewrite Hnone; reflexivity).
    reflexivity.
  - unfold create_portfolio. rewrite (profile_route_valid _ _ _ _ _ Hval Ht Hd).
    unfold create_portfolio_handler. cbv zeta. apply try_catch_return.
    erewrite bind_normal by (unfold BigInt_M; rewrite Hid; reflexivity).
    erewrite bind_normal
      by (unfold prisma.creatorProfile.findUnique_user_id, gets; rewrite Hnone; reflexivity).
    reflexivity.
  - unfold submit_kyc. rewrite (profile_route_valid _ _ _ _ _ Hval Ht Hd).
    unfold submit_kyc_handler. cbv zeta. apply try_catch_return.
    erewrite bind_normal by (unfold BigInt_M; rewrite Hid; reflexivity).
    erewrite bind_normal
      by (unfold prisma.creatorProfile.findUnique_user_id, gets; rewrite Hnone; reflexivity).
    reflexivity.
Qed.

End TokenFacts.

(** ** The theorems at concrete requests *)

Module Examples.
Import Fixture.



Lemma verify_expired_code_rejected_witness :
  verify_phone_code (verify_request "482913") expired_code
  = (Return invalid_or_expired, expired_code).
Proof.
  apply (verify_expired_code_rejected (RT := runtime) (verify_request "482913") expired_code phone "482913").
  - reflexivity.
  - reflexivity.
  - reflexivity.
  - reflexivity.
  - intros r [<-|[]] _ _. simpl. lia.
Defined.





Lemma send_code_cooldown_changes_nothing_witness :
  sent_status (send_phone_verification_code send_request same_code_twice) = Some 429
  /\ snd (send_phone_verification_code send_request same_code_twice) = same_code_twice.
Proof.
  split; [reflexivity|].
  apply (send_code_cooldown_changes_nothing (RT := runtime) send_request same_code_twice
           (snd (send_phone_verification_code send_request same_code_twice)) send_cooldown).
  - vm_compute. reflexivity.
  - reflexivity.
Defined.


(** The same three failing tokens (expired, malformed, signed with another
    secret) are answered 401 by the auth profile fetch and by the profile
    routes, and 500 by update-name. *)
Example failing_tokens_across_endpoints :
  let w := world no_env 100000 db_user7 (twilio_says "approved") in
  map (fun t => token_fails (bearer t name_body) w) bad_tokens = [true; true; true]
  /\ map (fun t => sent_status (auth_profile (bearer t VNull) w)) bad_tokens
     = [Some 401; Some 401; Some 401]
  /\ map (fun t => sent_status (create_package (bearer t package_body) w)) bad_tokens
     = [Some 401; Some 401; Some 401]
  /\ map (fun t => sent_status (update_name (bearer t name_body) w)) bad_tokens
     = [Some 500; Some 500; Some 500].
Proof. vm_compute. repeat split; reflexivity. Qed.

Lemma failing_token_status_witness :
  let w := world no_env 100000 db_user7 (twilio_says "approved") in
  sent_status (update_name (bearer "garbage" name_body) w) = Some 500
  /\ sent_status (auth_profile (bearer "garbage" name_body) w) = Some 401
  /\ sent_status (create_package (bearer "garbage" package_body) w) = Some 401.
Proof.
  cbv zeta. split; [|split].
  - apply (failing_token_status (RT := runtime) UpdateName (bearer "garbage" name_body)
             (world no_env 100000 db_user7 (twilio_says "approved")));
      vm_compute; reflexivity.
  - apply (failing_token_status (RT := runtime) AuthProfile (bearer "garbage" name_body)
             (world no_env 100000 db_user7 (twilio_says "approved")));
      vm_compute; reflexivity.
  - apply (failing_token_status (RT := runtime)
             (ProfileRoute create_package_checks create_package_handler)
             (bearer "garbage" package_body)
             (world no_env 100000 db_user7 (twilio_says "approved")));
      vm_compute; reflexivity.
Defined.

(** The same routes with a creator profile in place do store rows. *)
Example profile_routes_store_rows :
  let w := world no_env 100000 (mkDb [] [user7] [CreatorProfile.mk 3 7] [] [] [])
                 (twilio_says "approved") in
  let after_package := snd (create_package (bearer good_token package_body) w) in
  let after_portfolio := snd (create_portfolio (bearer good_token portfolio_body) w) in
  let after_kyc := snd (submit_kyc (bearer good_token kyc_body) w) in
  map Package.title (package (db after_package)) = ["instagram reel"]
  /\ map PortfolioItem.file_size (portfolioItem (db after_portfolio)) = [2048]
  /\ map KYC.document_type (kYC (db after_kyc)) = ["PAN"].
Proof. vm_compute. repeat split; reflexivity. Qed.

(** C9, as stated, fails: the answer to a user without a creator profile
    is 400, not 404. *)
Lemma missing_creator_profile_is_not_404 :
  let w := world no_env 100000 db_user7 (twilio_says "approved") in
  creatorProfile (db w) = []
  /\ sent (create_package (bearer good_token package_body) w) = Some profile_not_found
  /\ sent (create_portfolio (bearer good_token portfolio_body) w) = Some profile_not_found
  /\ sent (submit_kyc (bearer good_token kyc_body) w) = Some profile_not_found
  /\ status profile_not_found <> 404.
Proof. vm_compute. repeat split; try reflexivity. discriminate. Qed.

Lemma missing_creator_profile_is_400_witness :
  let w := world no_env 100000 db_user7 (twilio_says "approved") in
  create_package (bearer good_token package_body) w = (Return profile_not_found, w)
  /\ db (snd (create_package (bearer good_token package_body) w)) = db_user7.
Proof.
  cbv zeta.
  destruct (missing_creator_profile_is_400 (RT := runtime)
              (bearer good_token package_body)
              (world no_env 100000 db_user7 (twilio_says "approved"))
              (VObj [("userId", VStr "7")]) 7 ltac:(reflexivity) ltac:(reflexivity) ltac:(reflexivity) ltac:(reflexivity))
    as [Hpackage _].
  rewrite (Hpackage ltac:(reflexivity)). split; reflexivity.
Defined.

End Examples.

(** ** Every run of [verify-phone-code] *)

Section VerifyRuns.
Context {RT : Runtime}.

(** The provider check ends in one of three ways and leaves the database,
    the clock and the environment alone. *)
Lemma twilio_check_cases phone code w :
  exists c w1,
    twilio_check phone code w = (c, w1)
    /\ db w1 = db w /\ clock w1 = clock w /\ env w1 = env w
    /\ (c = Normal true \/ c = Normal false \/ c = Return invalid_code).
Proof.
  destruct (twilio_configured w) eqn:Hc.
  - destruct (twilio_answer w (check_call w phone code)) as [e|st] eqn:Ha.
    + eexists _, _. split; [eapply twilio_check_error; eassumption|]. simpl. tauto.
    + destruct (String.eqb_spec st "approved") as [->|Hne].
      * eexists _, _. split; [eapply twilio_check_approved; eassumption|]. simpl. tauto.
      * eexists _, _. split; [eapply twilio_check_denied; eassumption|]. simpl. tauto.
  - eexists _, _. split; [eapply twilio_check_unconfigured; eassumption|]. tauto.
Qed.

Lemma most_recent_some (rows : list PhoneVerification.t) :
  rows <> [] -> exists v, most_recent rows = Some v.
Proof.
  destruct rows as [|r rest]; [congruence|]. intros _. simpl.
  destruct (most_recent rest) as [r'|]; [|eauto].
  destruct (_ <=? _); eauto.
Qed.

(** The database fallback throws before it looks, refuses, or stamps the
    most recent pending row. *)
Lemma database_verification_cases phone code w :
  (exists e, database_verification phone code w = (Throw e, w))
  \/ database_verification phone code w = (Return invalid_or_expired, w)
  \/ (exists phone_ code_ v,
        phone = VStr phone_ /\ code = VStr code_
        /\ most_recent (List.filter (pending_for phone_ code_ (clock w))
                                    (phoneVerification (db w))) = Some v
        /\ database_verification phone code w
           = (Normal tt,
              with_rows (mark_verified (PhoneVerification.id v) (clock w)
                                       (phoneVerification (db w))) w)).
Proof.
  destruct phone as [| | | | | |phone_| |]; try (left; eexists; reflexivity).
  destruct code as [| | | | | |code_| |]; try (left; eexists; reflexivity).
  destruct (List.filter (pending_for phone_ code_ (clock w)) (phoneVerification (db w)))
    as [|r rest] eqn:F.
  - right. left. now apply database_verification_none.
  - right. right.
    destruct (most_recent_some (r :: rest) ltac:(discriminate)) as [v Hv].
    exists phone_, code_, v. rewrite F. repeat split; [exact Hv|].
    apply database_verification_some. now rewrite F.
Qed.

(** Finding or creating the user throws before it writes, or takes one
    login step on the [user] table. *)
Lemma find_or_create_cases phone fullName w :
  (exists e, find_or_create_phone_user phone fullName w = (Throw e, w))
  \/ (exists u us,
        find_or_create_phone_user phone fullName w
        = (Normal u, with_db (with_user us (db w)) w)
        /\ login_step (clock w) (user (db w)) us).
Proof.
  destruct phone as [| | | | | |phone_| |]; try (left; eexists; reflexivity).
  unfold find_or_create_phone_user, as_String, bind, ret, gets,
    prisma.user.findUnique_phone, Date_now, prisma.user.update, prisma.user.create.
  simpl.
  destruct (List.find _ (user (db w))) as [u0|] eqn:F.
  - assert (Hin : In u0 (user (db w))) by (apply find_some in F; tauto).
    destruct (List.find (fun u => User.id u =? User.id u0) (user (db w))) as [u1|] eqn:G.
    2:{ exfalso. apply (find_none _ _ G) in Hin. simpl in Hin.
        now rewrite Z.eqb_refl in Hin. }
    destruct (truthy fullName) eqn:T.
    + destruct fullName; try (left; eexists; reflexivity).
      right. simpl. rewrite G. eexists _, _. split; [reflexivity|].
      now apply user_logged_in.
    + right. simpl. rewrite G. eexists _, _. split; [reflexivity|].
      now apply user_logged_in.
  - destruct (truthy fullName) eqn:T.
    + destruct fullName; try (left; eexists; reflexivity).
      right. simpl. eexists _, _. split; [reflexivity|].
      now apply user_created.
    + right. simpl. eexists _, _. split; [reflexivity|].
      now apply user_created.
Qed.

(** The tail of the handler throws before it writes, or answers with the
    user and a token after one login step. *)
Lemma verify_tail_cases phone fullName w :
  (exists e, verify_tail_prog phone fullName w = (Throw e, w))
  \/ (exists u us,
        verify_tail_prog phone fullName w
        = (Return (verify_ok u (session_token w (User.id u))),
           with_db (with_user us (db w)) w)
        /\ login_step (clock w) (user (db w)) us).
Proof.
  unfold verify_tail_prog.
  destruct (find_or_create_cases phone fullName w) as [[e E]|(u & us & E & Hstep)].
  - left. exists e. now apply bind_throw.
  - right. exists u, us. split; [|exact Hstep].
    erewrite bind_normal by exact E. reflexivity.
Qed.

Ltac failed_outcome :=
  unfold verify_outcome; simpl;
  repeat match goal with H : db _ = db _ |- _ => rewrite H end;
  repeat split; try apply rows_kept; try apply users_kept; auto;
  try discriminate; try (intros; discriminate).

Lemma verify_run req w :
  exists resp w', verify_phone_code req w = (Return resp, w') /\ verify_outcome req w resp w'.
Proof.
  unfold verify_phone_code, validateRequest.
  destruct (validationResult verify_checks req) as [|err errs].
  2:{ eexists _, _. split; [reflexivity|]. failed_outcome. }
  cbv zeta.
  set (phone := get (req_body req) "phone").
  set (code := get (req_body req) "code").
  set (fullName := get (req_body req) "fullName").
  fold (verify_tail_prog phone fullName).
  destruct (twilio_check_cases phone code w) as (c & w1 & E1 & Hdb1 & Hclk1 & Henv1 & Hc).
  (* the tail, from a world that agrees with [w] on users, clock and environment *)
  assert (Htail : forall w2 rows2,
            db w2 = with_phoneVerification rows2 (db w) ->
            clock w2 = clock w -> env w2 = env w ->
            verification_step (clock w) (phoneVerification (db w)) rows2 ->
            forall body : M unit,
              body w = verify_tail_prog phone fullName w2 ->
              exists resp w',
                try_catch body
                  (fun error =>
                     console_error "Verify OTP error:" error ;;
                     send 500 (VObj [("error", str "Phone verification failed");
                                     ("message", str (exn_message error))])) w
                = (Return resp, w')
                /\ verify_outcome req w resp w').
  { intros w2 rows2 Hdb2 Hclk2 Henv2 Hrows body Hbody.
    destruct (verify_tail_cases phone fullName w2) as [[e E]|(u & us & E & Hstep)].
    - eexists _, _. split.
      + erewrite try_catch_throw; [reflexivity|]. rewrite Hbody. exact E.
      + unfold verify_outcome. simpl. rewrite Hdb2. simpl.
        split; [exact Hrows|]. split; [apply users_kept|].
        repeat split; auto; discriminate.
    - eexists _, _. split.
      + apply try_catch_return. rewrite Hbody. exact E.
      + unfold verify_outcome. simpl. rewrite Hdb2 in *. simpl in *.
        rewrite Hclk2 in Hstep.
        split; [exact Hrows|]. split; [exact Hstep|].
        repeat split; auto; try discriminate.
        intros _. exists w2. rewrite Hdb2. simpl. repeat split; assumption. }
  destruct Hc as [-> | [-> | ->]].
  - (* provider approved *)
    apply (Htail w1 (phoneVerification (db w))); try assumption.
    + rewrite Hdb1. now destruct (db w).
    + apply rows_kept.
    + erewrite bind_normal by exact E1. cbn [negb].
      erewrite bind_normal by reflexivity. reflexivity.
  - (* local verification *)
    destruct (database_verification_cases phone code w1)
      as [[e E]|[E|(phone_ & code_ & v & Hp & Hcd & Hv & E)]].
    + eexists _, _. split.
      * erewrite try_catch_throw; [reflexivity|].
        erewrite bind_normal by exact E1. cbn [negb].
        apply bind_throw. exact E.
      * failed_outcome.
    + eexists _, _. split.
      * apply try_catch_return.
        erewrite bind_normal by exact E1. cbn [negb].
        apply bind_return. exact E.
      * failed_outcome.
    + rewrite Hdb1, Hclk1 in Hv, E.
      apply (Htail (with_rows (mark_verified (PhoneVerification.id v) (clock w)
                                             (phoneVerification (db w))) w1)
                   (mark_verified (PhoneVerification.id v) (clock w)
                                  (phoneVerification (db w)))); try assumption.
      * simpl. now rewrite Hdb1.
      * apply most_recent_in in Hv. apply filter_In in Hv as [Hin Hpend].
        apply pending_for_true in Hpend. apply row_marked; tauto.
      * erewrite bind_normal by exact E1. cbn [negb].
        erewrite bind_normal by exact E. reflexivity.
  - (* provider denied *)
    eexists _, _. split.
    + apply try_catch_return. apply bind_return. exact E1.
    + failed_outcome.
Qed.

End VerifyRuns.

(** ** Every run of [send-phone-verification-code] *)

Section SendRuns.
Context {RT : Runtime}.

Lemma send_run req w :
  exists resp w',
    send_phone_verification_code req w = (Return resp, w') /\ send_outcome req w resp w'.
Proof.
  destruct (validationResult send_checks req) as [|err errs] eqn:Hval.
  2:{ unfold send_phone_verification_code, validateRequest. rewrite Hval.
      eexists _, _. split; [reflexivity|]. right. simpl. tauto. }
  destruct (get (req_body req) "phone") as [| |b|q|n|ms|phone_|items|fields] eqn:Hp.
  7:{ destruct (List.find (recent_for phone_ (clock w - 60 * 1000))
                          (phoneVerification (db w))) as [r0|] eqn:F.
      - eexists _, _. split; [eapply send_cooled_down; eassumption|].
        right. simpl. tauto.
      - eexists _, _. split; [eapply send_accepted; eassumption|].
        left. split; [reflexivity|]. exists phone_. split; [exact Hp|].
        destruct (dispatch_sms_total (VStr phone_) phone_ (issued_otp w)
                                     (issue_code w phone_)) as (b & w1 & E & Hdb & _).
        rewrite E. simpl. rewrite Hdb. reflexivity. }
  all: unfold send_phone_verification_code;
    rewrite validateRequest_pass by exact Hval; rewrite Hp;
    eexists _, _; (split; [reflexivity|]); right; simpl; tauto.
Qed.

End SendRuns.

(** ** Invariants of the tables *)

Lemma next_id_above (ids : list Z) (x : Z) : In x ids -> x < next_id ids.
Proof.
  unfold next_id. induction ids as [|y ids IH]; simpl; [tauto|].
  intros [->|Hin]; [lia|]. specialize (IH Hin). lia.
Qed.

Lemma next_id_fresh (ids : list Z) : ~ In (next_id ids) ids.
Proof. intros Hin. apply next_id_above in Hin. lia. Qed.

Lemma NoDup_snoc_fresh (ids : list Z) : NoDup ids -> NoDup (ids ++ [next_id ids]).
Proof.
  intros Hnd. apply NoDup_app; split; [exact Hnd|]. split.
  - intros x Hx Hin. apply list_elem_of_In in Hx.
    apply list_elem_of_In in Hin. destruct Hin as [<-|[]].
    now apply next_id_fresh in Hx.
  - apply NoDup_singleton.
Qed.

(** Rows with distinct keys: a key names its row. *)
Lemma NoDup_key {T} (key : T -> Z) (l : list T) (a b : T) :
  NoDup (map key l) -> In a l -> In b l -> key a = key b -> a = b.
Proof.
  induction l as [|x l IH]; simpl; [tauto|].
  intros Hnd Ha Hb Hk. apply NoDup_cons in Hnd as [Hx Hnd].
  rewrite list_elem_of_In in Hx.
  destruct Ha as [->|Ha], Hb as [->|Hb]; try reflexivity.
  - exfalso. apply Hx. rewrite Hk. now apply in_map.
  - exfalso. apply Hx. rewrite <- Hk. now apply in_map.
  - now apply IH.
Qed.

Lemma mark_verified_issued_part (id_ at_ : Z) (rows : list PhoneVerification.t) :
  map issued_part (mark_verified id_ at_ rows) = map issued_part rows.
Proof.
  unfold mark_verified. induction rows as [|r rows IH]; simpl; [reflexivity|].
  rewrite IH. f_equal. now destruct (PhoneVerification.id r =? id_).
Qed.

Lemma issued_part_ids (rows rows' : list PhoneVerification.t) :
  map issued_part rows' = map issued_part rows ->
  map PhoneVerification.id rows' = map PhoneVerification.id rows.
Proof.
  intros E.
  assert (H : forall l, map PhoneVerification.id l
                        = map (fun p => fst (fst (fst (fst (fst p))))) (map issued_part l)).
  { intros l. rewrite map_map. reflexivity. }
  now rewrite (H rows), (H rows'), E.
Qed.

Section StepFacts.
Variable now : Z.

Lemma verification_step_issued_part rows rows' :
  verification_step now rows rows' -> map issued_part rows' = map issued_part rows.
Proof.
  intros [|v Hin Hv]; [reflexivity | apply mark_verified_issued_part].
Qed.

(** With distinct keys, the step touches no row that is already verified. *)
Lemma verification_step_keeps_verified rows rows' r :
  NoDup (map PhoneVerification.id rows) ->
  verification_step now rows rows' ->
  In r rows -> PhoneVerification.verified_at r <> None -> In r rows'.
Proof.
  intros Hnd [|v Hin Hv] Hr Hver; [exact Hr|].
  unfold mark_verified. apply in_map_iff. exists r. split; [|exact Hr].
  destruct (PhoneVerification.id r =? PhoneVerification.id v) eqn:E; [|reflexivity].
  apply Z.eqb_eq in E.
  assert (r = v) by (eapply NoDup_key; eassumption). subst r. congruence.
Qed.

(** The step verifies; it never clears a timestamp. *)
Lemma verification_step_pending_before rows rows' r' :
  verification_step now rows rows' ->
  In r' rows' -> PhoneVerification.verified_at r' = None -> In r' rows.
Proof.
  intros [|v Hin Hv] Hr Hnone; [exact Hr|].
  unfold mark_verified in Hr. apply in_map_iff in Hr as (r & <- & Hr).
  destruct (PhoneVerification.id r =? PhoneVerification.id v); [discriminate | exact Hr].
Qed.

Lemma login_step_ids users users' :
  login_step now users users' ->
  NoDup (map User.id users) -> NoDup (map User.id users').
Proof.
  intros [|phone_ name_ Hnone|u0 name_ Hin] Hnd; [exact Hnd| |].
  - rewrite map_app. simpl. now apply NoDup_snoc_fresh.
  - rewrite map_map.
    replace (map _ users) with (map User.id users); [exact Hnd|].
    apply map_ext. intros u. now destruct (User.id u =? User.id u0).
Qed.

Lemma users_of_phone_logged_in phone_ u0 name_ users :
  length (users_of_phone phone_
            (map (fun u => if User.id u =? User.id u0
                           then login_phone_user now name_ u else u) users))
  = length (users_of_phone phone_ users).
Proof.
  unfold users_of_phone. induction users as [|u users IH]; simpl; [reflexivity|].
  assert (E : has_phone phone_ (if User.id u =? User.id u0
                                then login_phone_user now name_ u else u)
              = has_phone phone_ u)
    by now destruct (User.id u =? User.id u0).
  rewrite E. destruct (has_phone phone_ u); simpl; now rewrite IH.
Qed.

Lemma login_step_one_user_per_phone users users' :
  login_step now users users' ->
  one_user_per_phone users -> one_user_per_phone users'.
Proof.
  intros [|phone_ name_ Hnone|u0 name_ Hin] Hone p; [apply Hone| |].
  - unfold users_of_phone. rewrite List.filter_app, List.length_app. simpl.
    unfold has_phone at 2. simpl.
    destruct (bool_decide_reflect (Some phone_ = Some p)) as [[= ->]|Hne]; simpl.
    + replace (List.filter (has_phone p) users) with (@nil User.t); [simpl; lia|].
      symmetry. apply filter_nil. intros x Hx. now apply (find_none _ _ Hnone).
    + specialize (Hone p). unfold users_of_phone in Hone. lia.
  - rewrite users_of_phone_logged_in. apply Hone.
Qed.

Lemma login_step_grows users users' :
  login_step now users users' -> (length users <= length users')%nat.
Proof.
  intros [|phone_ name_ Hnone|u0 name_ Hin].
  - lia.
  - rewrite List.length_app. simpl. lia.
  - rewrite List.length_map. lia.
Qed.

End StepFacts.

(** ** Further properties of the phone flow *)

Section PhoneFlow.
Context {RT : Runtime}.


(** X2. [verify-phone-code] always answers, with 200, 400 or 500.  A 400
    leaves the database as it was; no run adds or removes a
    [phoneVerification] row or touches the creator-profile tables; a 500
    leaves the users as they were. *)
Theorem verify_always_answers (req : Request) (w : World) :
  exists resp w',
    verify_phone_code req w = (Return resp, w')
    /\ (status resp = 200 \/ status resp = 400 \/ status resp = 500)
    /\ (status resp = 400 -> db w' = db w)
    /\ (status resp = 500 -> user (db w') = user (db w))
    /\ length (phoneVerification (db w')) = length (phoneVerification (db w))
    /\ profile_tables (db w') = profile_tables (db w).
Proof.
  destruct (verify_run req w) as (resp & w' & E & Hpv & Hus & Hpt & Hst & H400 & H500 & _).
  exists resp, w'. repeat split; try assumption.
  apply verification_step_issued_part in Hpv.
  apply (f_equal (@length _)) in Hpv. now rewrite !List.length_map in Hpv.
Qed.

(** X3. The [phoneVerification] table is an append-only log.  Whatever
    the request and its outcome, after a run of either phone handler every
    row is still there with the phone, code, token and times it was issued
    with; keys that were distinct stay distinct; and with distinct keys a
    verification timestamp, once set, is never changed; no timestamp is
    ever cleared. *)
Theorem phone_verification_log_append_only (req : Request) (w w' : World) :
  w' = snd (send_phone_verification_code req w)
  \/ w' = snd (verify_phone_code req w) ->
  let rows := phoneVerification (db w) in
  let rows' := phoneVerification (db w') in
  log_continues rows rows'
  /\ (forall r', In r' rows' -> PhoneVerification.verified_at r' = None ->
                 In r' rows \/ PhoneVerification.created_at r' = clock w)
  /\ (NoDup (map PhoneVerification.id rows) ->
      NoDup (map PhoneVerification.id rows')
      /\ forall r, In r rows -> PhoneVerification.verified_at r <> None -> In r rows').
Proof.
  intros [->| ->]; cbv zeta.
  - destruct (send_run req w) as (resp & w' & E & Hout). rewrite E. simpl.
    destruct Hout as [(Hst & phone_ & Hp & Hdb)|(Hst & Hdb)]; rewrite Hdb; simpl.
    + split; [now exists [issued_row w phone_]|]. split.
      * intros r' Hr' _. apply in_app_or in Hr' as [Hr'|[<-|[]]]; [now left | now right].
      * intros Hnd. split.
        -- rewrite map_app. simpl. now apply NoDup_snoc_fresh.
        -- intros r Hr _. apply in_or_app. now left.
    + split; [exists []; now rewrite app_nil_r|]. split; [now left|].
      intros Hnd. split; [exact Hnd | now intros].
  - destruct (verify_run req w) as (resp & w' & E & Hpv & _). rewrite E. simpl.
    pose proof (verification_step_issued_part _ _ _ Hpv) as Hissued.
    split; [exists []; now rewrite app_nil_r|]. split.
    + intros r' Hr' Hnone. left.
      now apply (verification_step_pending_before _ _ _ _ Hpv).
    + intros Hnd. split.
      * now rewrite (issued_part_ids _ _ Hissued).
      * intros r Hr Hver. now apply (verification_step_keeps_verified _ _ _ _ Hnd Hpv).
Qed.

(** X4. [verify-phone-code] keeps the [user] table well formed: whatever
    the request and its outcome, user keys that were distinct stay
    distinct, no phone number that had at most one user gets a second
    one, and no user is removed. *)
Theorem verify_keeps_users_well_formed (req : Request) (w : World) :
  let users := user (db w) in
  let users' := user (db (snd (verify_phone_code req w))) in
  (NoDup (map User.id users) -> NoDup (map User.id users'))
  /\ (one_user_per_phone users -> one_user_per_phone users')
  /\ (length users <= length users')%nat.
Proof.
  cbv zeta.
  destruct (verify_run req w) as (resp & w' & E & _ & Hus & _). rewrite E. simpl.
  split; [|split].
  - now apply (login_step_ids _ _ _ Hus).
  - now apply (login_step_one_user_per_phone _ _ _ Hus).
  - now apply (login_step_grows _ _ _ Hus).
Qed.

End PhoneFlow.

Section LoginFacts.
Context {RT : Runtime}.

Lemma session_token_frame w w2 userId :
  clock w2 = clock w -> env w2 = env w -> session_token w2 userId = session_token w userId.
Proof. intros Hc He. unfold session_token, env_or. now rewrite Hc, He. Qed.

Lemma generateToken_run userId w :
  generateToken userId w = (Normal (session_token w userId), w).
Proof. reflexivity. Qed.

Lemma find_or_create_new phone_ fullName w :
  optional_string fullName ->
  List.find (has_phone phone_) (user (db w)) = None ->
  exists name_,
    name_or_default fullName = VStr name_
    /\ find_or_create_phone_user (VStr phone_) fullName w
       = (Normal (new_phone_user phone_ name_ (next_id (map User.id (user (db w))))),
          with_db (with_user
                     (user (db w)
                      ++ [new_phone_user phone_ name_ (next_id (map User.id (user (db w))))])
                     (db w)) w).
Proof.
  intros Hfn F.
  unfold find_or_create_phone_user, as_String, bind, ret, gets,
    prisma.user.findUnique_phone, prisma.user.create, name_or_default. simpl.
  change (fun u => bool_decide (User.phone u = Some phone_)) with (has_phone phone_).
  rewrite F.
  destruct Hfn as [->|[s ->]]; simpl.
  - now exists "User".
  - destruct (String.eqb s ""); simpl; eexists; split; reflexivity.
Qed.

Lemma find_or_create_existing phone_ fullName w u0 :
  optional_string fullName ->
  List.find (has_phone phone_) (user (db w)) = Some u0 ->
  NoDup (map User.id (user (db w))) ->
  find_or_create_phone_user (VStr phone_) fullName w
  = (Normal (login_phone_user (clock w) (supplied_name fullName) u0),
     with_db (with_user
                (map (fun u => if User.id u =? User.id u0
                               then login_phone_user (clock w) (supplied_name fullName) u
                               else u) (user (db w)))
                (db w)) w).
Proof.
  intros Hfn F Hnd.
  assert (Hin : In u0 (user (db w))) by (apply find_some in F; tauto).
  assert (G : List.find (fun u => User.id u =? User.id u0) (user (db w)) = Some u0).
  { destruct (List.find (fun u => User.id u =? User.id u0) (user (db w))) as [u1|] eqn:G.
    - apply find_some in G as [Hin1 Hid]. apply Z.eqb_eq in Hid.
      f_equal. eapply NoDup_key; eassumption.
    - exfalso. apply (find_none _ _ G) in Hin. simpl in Hin.
      now rewrite Z.eqb_refl in Hin. }
  unfold find_or_create_phone_user, as_String, bind, ret, gets,
    prisma.user.findUnique_phone, prisma.user.update, Date_now, supplied_name. simpl.
  change (fun u => bool_decide (User.phone u = Some phone_)) with (has_phone phone_).
  rewrite F.
  destruct Hfn as [->|[s ->]]; simpl.
  - now rewrite G.
  - destruct (String.eqb s ""); simpl; now rewrite G.
Qed.

End LoginFacts.

Section PhoneFlowMore.
Context {RT : Runtime}.

(** The local path with a pending row: the request succeeds. *)
Lemma verify_local_success req w phone_ code_ r :
  validationResult verify_checks req = [] ->
  get (req_body req) "phone" = VStr phone_ ->
  get (req_body req) "code" = VStr code_ ->
  optional_string (get (req_body req) "fullName") ->
  twilio_configured w = false ->
  In r (phoneVerification (db w)) ->
  pending_for phone_ code_ (clock w) r = true ->
  exists u w',
    verify_phone_code req w = (Return (verify_ok u (session_token w (User.id u))), w').
Proof.
  intros Hval Hp Hc Hfn Hcfg Hin Hpend.
  destruct (most_recent_some
              (List.filter (pending_for phone_ code_ (clock w)) (phoneVerification (db w))))
    as [v Hv].
  { intros E. assert (H : In r []) by (rewrite <- E; apply filter_In; tauto). destruct H. }
  destruct (verify_tail phone_ (get (req_body req) "fullName")
              (user (db w)) (clock w) Hfn) as (u & us & _ & _ & Htail).
  eexists u, _.
  unfold verify_phone_code. rewrite validateRequest_pass by exact Hval.
  rewrite Hp, Hc. apply try_catch_return.
  erewrite bind_normal by (apply twilio_check_unconfigured; exact Hcfg).
  cbn [negb].
  erewrite bind_normal by (apply database_verification_some; exact Hv).
  rewrite Htail by reflexivity. reflexivity.
Qed.

Lemma verify_local_refusal req w phone_ code_ :
  validationResult verify_checks req = [] ->
  get (req_body req) "phone" = VStr phone_ ->
  get (req_body req) "code" = VStr code_ ->
  twilio_configured w = false ->
  (forall r, In r (phoneVerification (db w)) -> pending_for phone_ code_ (clock w) r = false) ->
  verify_phone_code req w = (Return invalid_or_expired, w).
Proof.
  intros Hval Hp Hc Hcfg Hnone.
  unfold verify_phone_code. rewrite validateRequest_pass by exact Hval.
  rewrite Hp, Hc. apply try_catch_return.
  erewrite bind_normal by (apply twilio_check_unconfigured; exact Hcfg).
  cbn [negb]. apply bind_return. apply database_verification_none.
  now apply filter_nil.
Qed.

(** X5. With the provider not configured, a well-formed request is
    decided by the stored rows alone: it is answered 200 exactly when some
    row for this phone and this code is unexpired and unverified, and
    otherwise answered 400 "Invalid or expired verification code" with the
    world unchanged.  A code issued for another phone, a mistyped code, a
    used code and an expired code all fall in the second case. *)
Theorem local_verification_decided_by_pending_rows
    (req : Request) (w : World) (phone_ code_ : string) :
  validationResult verify_checks req = [] ->
  get (req_body req) "phone" = VStr phone_ ->
  get (req_body req) "code" = VStr code_ ->
  optional_string (get (req_body req) "fullName") ->
  twilio_configured w = false ->
  let pending r :=
    PhoneVerification.phone r = phone_ /\ PhoneVerification.code r = code_
    /\ clock w < PhoneVerification.expires_at r
    /\ PhoneVerification.verified_at r = None in
  (sent_status (verify_phone_code req w) = Some 200
   <-> exists r, In r (phoneVerification (db w)) /\ pending r)
  /\ ((forall r, In r (phoneVerification (db w)) -> ~ pending r) ->
      verify_phone_code req w = (Return invalid_or_expired, w)).
Proof.
  intros Hval Hp Hc Hfn Hcfg pending.
  assert (Hrefuse : (forall r, In r (phoneVerification (db w)) -> ~ pending r) ->
                    verify_phone_code req w = (Return invalid_or_expired, w)).
  { intros Hnone. apply verify_local_refusal with (phone_ := phone_) (code_ := code_);
      try assumption.
    intros r Hin. destruct (pending_for phone_ code_ (clock w) r) eqn:E; [|reflexivity].
    exfalso. apply (Hnone r Hin). now apply pending_for_true. }
  split; [|exact Hrefuse]. split.
  - intros Hst.
    destruct (List.find (pending_for phone_ code_ (clock w)) (phoneVerification (db w)))
      as [r|] eqn:F.
    + apply find_some in F as [Hin Hpend]. exists r. split; [exact Hin|].
      now apply pending_for_true.
    + exfalso. rewrite Hrefuse in Hst; [discriminate|].
      intros r Hin Hpend. apply pending_for_true in Hpend.
      pose proof (find_none _ _ F r Hin) as Hf. simpl in Hf. congruence.
  - intros (r & Hin & Hpend). apply pending_for_true in Hpend.
    destruct (verify_local_success req w phone_ code_ r Hval Hp Hc Hfn Hcfg Hin Hpend)
      as (u & w' & E).
    now rewrite E.
Qed.

(** X6. Issue, then verify.  After a request for a code was accepted, and
    as long as the stored row is still there, submitting the issued code
    for the same phone less than ten minutes after the request succeeds
    (provider not configured).  From ten minutes on, for a phone that had
    no row before and got none since, the same submission is refused as
    invalid or expired. *)
Theorem issued_code_verifies_for_ten_minutes
    (send_req verify_req : Request) (w w1 w2 : World) (phone_ : string) :
  validationResult send_checks send_req = [] ->
  get (req_body send_req) "phone" = VStr phone_ ->
  send_phone_verification_code send_req w = (Return (send_ok (VStr phone_)), w1) ->
  validationResult verify_checks verify_req = [] ->
  get (req_body verify_req) "phone" = VStr phone_ ->
  get (req_body verify_req) "code" = VStr (issued_otp w) ->
  optional_string (get (req_body verify_req) "fullName") ->
  twilio_configured w2 = false ->
  (clock w2 < clock w + 600000 ->
   (forall r, In r (phoneVerification (db w1)) -> In r (phoneVerification (db w2))) ->
   sent_status (verify_phone_code verify_req w2) = Some 200)
  /\ (clock w + 600000 <= clock w2 ->
      phoneVerification (db w2) = phoneVerification (db w1) ->
      (forall r, In r (phoneVerification (db w)) -> PhoneVerification.phone r <> phone_) ->
      verify_phone_code verify_req w2 = (Return invalid_or_expired, w2)).
Proof.
  intros Hval Hp Hsend Hval' Hp' Hc' Hfn Hcfg.
  pose proof (send_ok_stored_row send_req w w1 phone_ Hval Hp Hsend) as Hrows.
  split.
  - intros Hclock Hkept.
    destruct (verify_local_success verify_req w2 phone_ (issued_otp w) (issued_row w phone_)
                Hval' Hp' Hc' Hfn Hcfg) as (u & w' & E).
    + apply Hkept. rewrite Hrows. apply in_or_app. right. now left.
    + apply pending_for_true. simpl. repeat split. lia.
    + now rewrite E.
  - intros Hclock Hsame Hnew.
    apply verify_local_refusal with (phone_ := phone_) (code_ := issued_otp w);
      try assumption.
    intros r Hin. rewrite Hsame, Hrows in Hin.
    destruct (pending_for phone_ (issued_otp w) (clock w2) r) eqn:E; [|reflexivity].
    exfalso. apply pending_for_true in E as (E1 & E2 & E3 & E4).
    apply in_app_or in Hin as [Hin|[<-|[]]].
    + now apply (Hnew r Hin).
    + simpl in E3. lia.
Qed.

(** X7. Who a successful verification logs in (user keys distinct).  For
    a phone no user has, one user is appended: phone-verified, of type
    creator, active, named by [fullName] or "User" when that is missing or
    empty.  For a phone a user has, that user is updated in place:
    phone-verified, last login now, renamed only when a non-empty
    [fullName] came with the request; nobody else changes.  Either way the
    response carries that user's key and the token issued for it. *)
Theorem successful_verification_logs_in
    (req : Request) (w w' : World) (resp : Response) (phone_ : string) :
  get (req_body req) "phone" = VStr phone_ ->
  optional_string (get (req_body req) "fullName") ->
  NoDup (map User.id (user (db w))) ->
  verify_phone_code req w = (Return resp, w') ->
  status resp = 200 ->
  let fullName := get (req_body req) "fullName" in
  exists u,
    resp = verify_ok u (session_token w (User.id u))
    /\ In u (user (db w'))
    /\ User.phone u = Some phone_ /\ User.phone_verified u = true
    /\ match List.find (has_phone phone_) (user (db w)) with
       | None =>
           user (db w') = (user (db w) ++ [u])%list
           /\ name_or_default fullName = opt_str (User.name u)
           /\ User.user_type u = "creator" /\ User.status u = "active"
           /\ ~ In (User.id u) (map User.id (user (db w)))
       | Some u0 =>
           User.id u = User.id u0
           /\ User.name u = match supplied_name fullName with
                            | Some n => Some n
                            | None => User.name u0
                            end
           /\ User.last_login_at u = Some (clock w)
           /\ User.email u = User.email u0
           /\ length (user (db w')) = length (user (db w))
           /\ forall x, In x (user (db w)) -> x <> u0 -> In x (user (db w'))
       end.
Proof.
  intros Hp Hfn Hnd Hrun Hst fullName. subst fullName.
  destruct (verify_run req w) as (resp0 & w0 & E & Hout).
  rewrite Hrun in E. injection E as <- <-.
  destruct Hout as (_ & _ & _ & _ & _ & _ & Hok).
  destruct (Hok Hst) as (w2 & Hu2 & Hc2 & He2 & Etail). clear Hok.
  rewrite Hp in Etail. unfold verify_tail_prog in Etail.
  destruct (List.find (has_phone phone_) (user (db w))) as [u0|] eqn:F.
  - pose proof (find_or_create_existing phone_ (get (req_body req) "fullName") w2 u0 Hfn)
      as Efoc.
    rewrite Hu2, Hc2 in Efoc. specialize (Efoc F Hnd).
    erewrite bind_normal in Etail by exact Efoc.
    erewrite bind_normal in Etail by apply generateToken_run.
    injection Etail as <- <-.
    apply find_some in F as [Hin0 Hph]. apply bool_decide_eq_true in Hph.
    eexists. split; [f_equal; apply session_token_frame; assumption|].
    simpl. split; [|split; [exact Hph|split; [reflexivity|]]].
    + apply in_map_iff. exists u0. now rewrite Z.eqb_refl.
    + repeat split.
      * now rewrite List.length_map.
      * intros x Hx Hne. apply in_map_iff. exists x. split; [|exact Hx].
        destruct (User.id x =? User.id u0) eqn:Eid; [|reflexivity].
        apply Z.eqb_eq in Eid. exfalso. apply Hne. eapply NoDup_key; eassumption.
  - destruct (find_or_create_new phone_ (get (req_body req) "fullName") w2 Hfn)
      as (name_ & Hname & Efoc); [now rewrite Hu2|].
    rewrite Hu2 in Efoc.
    erewrite bind_normal in Etail by exact Efoc.
    erewrite bind_normal in Etail by apply generateToken_run.
    injection Etail as <- <-.
    eexists. split; [f_equal; apply session_token_frame; assumption|].
    simpl. split; [apply in_or_app; right; now left|].
    repeat split; try assumption. apply next_id_fresh.
Qed.

End PhoneFlowMore.

(** ** Further properties of the bearer-token gates *)

Lemma replace_eq (pat rep s : string) :
  replace pat rep s
  = if String.prefix pat s then rep ++ drop_chars (String.length pat) s
    else match s with
         | EmptyString => EmptyString
         | String c s' => String c (replace pat rep s')
         end.
Proof. destruct s; reflexivity. Qed.

Lemma prefix_split (p s : string) :
  String.prefix p s = true -> exists rest, s = p ++ rest.
Proof.
  revert s. induction p as [|a p IH]; intros s H.
  - now exists s.
  - destruct s as [|b s]; [discriminate|]. simpl in H.
    destruct (ascii_dec a b) as [->|]; [|discriminate].
    destruct (IH s H) as [rest ->]. now exists rest.
Qed.

Lemma no_space_no_bearer (s : string) :
  no_space s = true -> String.prefix "Bearer " s = false.
Proof.
  intros Hns. destruct (String.prefix "Bearer " s) eqn:E; [|reflexivity].
  apply prefix_split in E as [rest ->]. simpl in Hns. discriminate.
Qed.

(** A token without a space has no "Bearer " to strip. *)
Lemma replace_bearer_absent (t : string) :
  no_space t = true -> replace "Bearer " "" t = t.
Proof.
  induction t as [|c t IH]; intros Hns; [reflexivity|].
  rewrite replace_eq, (no_space_no_bearer _ Hns).
  simpl in Hns. apply andb_true_iff in Hns as [_ Hns]. now rewrite IH.
Qed.

Lemma prefix_app (p t : string) : String.prefix p (p ++ t) = true.
Proof.
  induction p as [|a p IH]; simpl; [now destruct t|].
  destruct (ascii_dec a a); [exact IH | congruence].
Qed.

Lemma replace_bearer_prefix (t : string) : replace "Bearer " "" ("Bearer " ++ t) = t.
Proof. rewrite replace_eq, prefix_app. reflexivity. Qed.

Section TokenGates.
Context {RT : Runtime}.


Lemma auth_profile_missing_token req w :
  no_token (bearer_token req) = true ->
  auth_profile req w = (Return no_token_provided, w).
Proof. intros Ht. unfold auth_profile. cbv zeta. now rewrite Ht. Qed.


(** X9. The "Bearer " prefix is optional: for a token without a space
    character, sending it bare in the Authorization header is treated by
    update-name, the auth profile fetch, create-package, create-portfolio
    and submit-kyc exactly as sending it after "Bearer ". *)
Theorem bearer_prefix_is_optional
    (handler : Request -> M unit) (req : Request) (w : World) (t : string) :
  In handler [update_name; auth_profile; create_package; create_portfolio; submit_kyc] ->
  no_space t = true ->
  handler (with_authorization (Some t) req) w
  = handler (with_authorization (Some ("Bearer " ++ t)) req) w.
Proof.
  intros Hh Hns. unfold with_authorization.
  assert (Hb : bearer_token (mkRequest (Some t) (req_body req))
               = bearer_token (mkRequest (Some ("Bearer " ++ t)) (req_body req))).
  { unfold bearer_token. cbn [authorization fmap option_fmap option_map].
    now rewrite replace_bearer_prefix, replace_bearer_absent. }
  destruct Hh as [<-|[<-|[<-|[<-|[<-|[]]]]]].
  - unfold update_name, validateRequest, validationResult. cbv zeta.
    cbn [req_body]. now rewrite Hb.
  - unfold auth_profile. cbv zeta. now rewrite Hb.
  - unfold create_package, create_package_handler, authenticated_route, authenticateToken,
      validateRequest, validationResult.
    cbv zeta. cbn [req_body]. now rewrite Hb.
  - unfold create_portfolio, create_portfolio_handler, authenticated_route,
      authenticateToken, validateRequest, validationResult.
    cbv zeta. cbn [req_body]. now rewrite Hb.
  - unfold submit_kyc, submit_kyc_handler, authenticated_route, authenticateToken,
      validateRequest, validationResult.
    cbv zeta. cbn [req_body]. now rewrite Hb.
Qed.

End TokenGates.

Section AuthRoutes.
Context {RT : Runtime}.

Lemma as_BigInt_run v w :
  as_BigInt v w = match BigInt_argument v with
                  | inl e => (Throw e, w)
                  | inr n => (Normal n, w)
                  end.
Proof. unfold as_BigInt. now destruct (BigInt_argument v). Qed.

(** X10. The auth profile fetch always answers, with 200, 401 or 404,
    never 500, and never writes to the database or calls the provider.
    It answers 200 exactly when the token verifies, the client accepts its
    userId as a key and a user has that key; every exception, not only a
    failing token, is answered 401 "Invalid token". *)
Theorem auth_profile_reads_only (req : Request) (w : World) :
  exists resp w',
    auth_profile req w = (Return resp, w')
    /\ db w' = db w /\ twilio_calls w' = twilio_calls w
    /\ (status resp = 200 \/ status resp = 401 \/ status resp = 404)
    /\ (status resp = 200 <->
        no_token (bearer_token req) = false
        /\ exists decoded id_ u,
             token_check req w = inr decoded
             /\ BigInt_argument (get decoded "userId") = inr id_
             /\ List.find (fun x => User.id x =? id_) (user (db w)) = Some u)
    /\ (forall decoded e,
          no_token (bearer_token req) = false ->
          token_check req w = inr decoded ->
          BigInt_argument (get decoded "userId") = inl e ->
          resp = invalid_token).
Proof.
  destruct (no_token (bearer_token req)) eqn:Ht.
  { eexists _, _. split; [now apply auth_profile_missing_token|].
    split; [reflexivity|]. split; [reflexivity|]. split; [simpl; tauto|]. split.
    - simpl. split; [discriminate | intros [? _]; discriminate].
    - discriminate. }
  destruct (token_check req w) as [e|decoded] eqn:Hc.
  { eexists _, _. split; [eapply auth_profile_invalid_token; eassumption|].
    split; [reflexivity|]. split; [reflexivity|]. split; [simpl; tauto|]. split.
    - simpl. split; [discriminate | intros (_ & ? & ? & ? & ? & _); discriminate].
    - discriminate. }
  unfold auth_profile. cbv zeta. rewrite Ht.
  destruct (BigInt_argument (get decoded "userId")) as [e|id_] eqn:Hid.
  { eexists _, _. split.
    - erewrite try_catch_throw; [reflexivity|].
      erewrite bind_normal by (eapply jwt_verify_env_ok; eassumption).
      apply bind_throw. rewrite as_BigInt_run, Hid. reflexivity.
    - split; [reflexivity|]. split; [reflexivity|]. split; [simpl; tauto|]. split.
      + simpl. split; [discriminate|].
        intros (_ & d & i & u & [= <-] & Hi & _). congruence.
      + reflexivity. }
  destruct (List.find (fun x => User.id x =? id_) (user (db w))) as [u|] eqn:F.
  - eexists _, _. split.
    + apply try_catch_return.
      erewrite bind_normal by (eapply jwt_verify_env_ok; eassumption).
      erewrite bind_normal by (rewrite as_BigInt_run, Hid; reflexivity).
      erewrite bind_normal
        by (unfold prisma.user.findUnique_id, gets; rewrite F; reflexivity).
      reflexivity.
    + split; [reflexivity|]. split; [reflexivity|]. split; [simpl; tauto|]. split.
      * simpl. split; [|reflexivity].
        intros _. split; [reflexivity|]. exists decoded, id_, u. tauto.
      * intros d e _ [= <-] He. congruence.
  - eexists _, _. split.
    + apply try_catch_return.
      erewrite bind_normal by (eapply jwt_verify_env_ok; eassumption).
      erewrite bind_normal by (rewrite as_BigInt_run, Hid; reflexivity).
      erewrite bind_normal
        by (unfold prisma.user.findUnique_id, gets; rewrite F; reflexivity).
      reflexivity.
    + split; [reflexivity|]. split; [reflexivity|]. split; [simpl; tauto|]. split.
      * simpl. split; [discriminate|].
        intros (_ & d & i & u & [= <-] & Hi & Hf).
        rewrite Hid in Hi. injection Hi as <-. rewrite F in Hf. discriminate.
      * intros d e _ [= <-] He. congruence.
Qed.


End AuthRoutes.

(** ** Further properties of the profile routes *)

Section ProfileRoutes.
Context {RT : Runtime}.




Lemma toUpperCase_M_run v w :
  toUpperCase_M v w = match v with
                      | VStr s => (Normal (toUpperCase s), w)
                      | _ => (Throw (TypeError "toUpperCase is not a function"), w)
                      end.
Proof. now destruct v. Qed.









End ProfileRoutes.

(** ** The session token, from issue to use *)

Section Session.
Context {RT : Runtime}.

Lemma bearer_token_of_header req t :
  no_space t = true ->
  bearer_token (with_authorization (Some ("Bearer " ++ t)) req) = Some t.
Proof.
  intros _. unfold bearer_token, with_authorization.
  cbn [authorization fmap option_fmap option_map]. now rewrite replace_bearer_prefix.
Qed.

Lemma find_or_create_member phone fullName w u w' :
  find_or_create_phone_user phone fullName w = (Normal u, w') ->
  In u (user (db w')).
Proof.
  destruct phone as [| | | | | |phone_| |]; try discriminate.
  unfold find_or_create_phone_user, as_String, bind, ret, gets,
    prisma.user.findUnique_phone, Date_now, prisma.user.update, prisma.user.create.
  simpl.
  destruct (List.find _ (user (db w))) as [u0|] eqn:F.
  - assert (Hin0 : In u0 (user (db w))) by (apply find_some in F; tauto).
    destruct (List.find (fun x => User.id x =? User.id u0) (user (db w)))
      as [u1|] eqn:G.
    2:{ exfalso. apply (find_none _ _ G) in Hin0. simpl in Hin0.
        now rewrite Z.eqb_refl in Hin0. }
    destruct (find_some _ _ G) as [Hin1 Hid1].
    destruct (truthy fullName); [destruct fullName; try discriminate|];
      simpl; rewrite ?F, ?G; simpl; intros [= <- <-]; simpl;
      apply in_map_iff; exists u1; rewrite Hid1; tauto.
  - destruct (truthy fullName); [destruct fullName; try discriminate|];
      simpl; intros [= <- <-]; simpl; apply in_or_app; right; now left.
Qed.

Lemma verify_tail_run phone fullName w resp w' :
  verify_tail_prog phone fullName w = (Return resp, w') ->
  exists u, In u (user (db w')) /\ resp = verify_ok u (session_token w (User.id u)).
Proof.
  unfold verify_tail_prog. intros E.
  destruct (find_or_create_cases phone fullName w) as [[e E']|(u & us & E' & _)].
  - erewrite bind_throw in E by exact E'. discriminate.
  - pose proof (find_or_create_member _ _ _ _ _ E') as Hin.
    erewrite bind_normal in E by exact E'.
    erewrite bind_normal in E by apply generateToken_run.
    injection E as <- <-. exists u. split; [exact Hin|reflexivity].
Qed.

(** X15. From login to a profile route.  Let verify-phone-code answer 200.
    Its response carries the token of the user it logged in, and if
    jsonwebtoken verifies, under the same secret, the payloads it signed
    and gives back their [userId], then a profile route that is sent this token after "Bearer " (the token being
    non-empty and free of spaces, the body valid) runs its handler with
    [req.userId] the decimal key of that user. *)
Theorem issued_token_names_its_user
    (req : Request) (w w' : World) (resp : Response)
    (checks : list Check) (handler : Request -> Value -> M unit)
    (req2 : Request) (w2 : World) :
  verify_phone_code req w = (Return resp, w') ->
  status resp = 200 ->
  env w2 = env w ->
  (forall userId iat,
     exists decoded,
       jwt_verify (jwt_sign (VObj [("userId", VStr userId); ("iat", VNum iat)])
                            (env_or "JWT_SECRET" "your-secret-key" w) "7d")
                  (env_or "JWT_SECRET" "your-secret-key" w) (clock w2) = inr decoded
       /\ get decoded "userId" = VStr userId) ->
  validationResult checks req2 = [] ->
  exists u token,
    In u (user (db w'))
    /\ get (body resp) "token" = VStr token
    /\ get (get (body resp) "user") "id" = VStr (Z_toString (User.id u))
    /\ (no_space token = true -> token <> "" ->
        authenticated_route checks handler
          (with_authorization (Some ("Bearer " ++ token)) req2) w2
        = handler (with_authorization (Some ("Bearer " ++ token)) req2)
                  (VStr (Z_toString (User.id u))) w2).
Proof.
  intros Hrun Hst Henv Hjwt Hval.
  destruct (verify_run req w) as (resp0 & w0 & E & Hout).
  rewrite Hrun in E. injection E as <- <-.
  destruct Hout as (_ & _ & _ & _ & _ & _ & Hok).
  destruct (Hok Hst) as (w1 & Hu1 & Hc1 & He1 & Etail). clear Hok.
  destruct (verify_tail_run _ _ _ _ _ Etail) as (u & Hin & ->).
  exists u, (session_token w1 (User.id u)).
  split; [exact Hin|]. split; [reflexivity|]. split; [reflexivity|].
  intros Hns Hne.
  destruct (Hjwt (Z_toString (User.id u)) (inject_Z (clock w1))) as (decoded & Hd & Hid).
  rewrite <- Hid.
  apply profile_route_valid.
  - exact Hval.
  - rewrite bearer_token_of_header by exact Hns. simpl.
    destruct (String.eqb_spec (session_token w1 (User.id u)) ""); [contradiction|reflexivity].
  - unfold token_check. rewrite bearer_token_of_header by exact Hns. simpl.
    unfold session_token, env_or in *. rewrite He1, Henv. exact Hd.
Qed.

End Session.

(** ** POST /google-mobile *)

Section GoogleFacts.
Context {RT : Runtime} {GA : GoogleAuth}.

Lemma raise_cases {A} (r : Exn + A) w :
  (exists e, r = inl e /\ raise r w = (Throw e, w))
  \/ (exists a, r = inr a /\ raise r w = (Normal a, w)).
Proof. destruct r as [e|a]; [left|right]; eexists; split; reflexivity. Qed.

Lemma column_cases name_ v w :
  (exists e, column name_ v w = (Throw e, w))
  \/ (exists f, column name_ v w = (Normal f, w)).
Proof.
  destruct v; cbn [column]; try (right; eexists; reflexivity).
  all: match goal with
       | |- context [raise ?r _] =>
           destruct (raise_cases r w) as [(e & _ & E)|(f & _ & E)];
           [left; exists e; exact E | right; exists f; exact E]
       end.
Qed.

Lemma user_update_member (u0 : User.t) (data : User.t -> User.t) w :
  In u0 (user (db w)) ->
  exists u1,
    In u1 (user (db w)) /\ User.id u1 = User.id u0
    /\ prisma.user.update (User.id u0) data w
       = (Normal (data u1),
          with_db (with_user (map (fun u => if User.id u =? User.id u0 then data u else u)
                                  (user (db w))) (db w)) w).
Proof.
  intros Hin. unfold prisma.user.update.
  destruct (List.find (fun u => User.id u =? User.id u0) (user (db w))) as [u1|] eqn:G.
  - destruct (find_some _ _ G) as [Hin1 Hid1]. exists u1.
    split; [exact Hin1|]. split; [lia|reflexivity].
  - exfalso. apply (find_none _ _ G) in Hin. simpl in Hin. lia.
Qed.

Lemma google_where_string e (users : list User.t) :
  exists f, google_where (VStr e) = inr f /\ List.find f users = List.find (has_email e) users.
Proof.
  eexists. split; [reflexivity|].
  induction users as [|u users IH]; simpl; [reflexivity|].
  destruct (has_email e u); simpl; [reflexivity|]. rewrite andb_false_r. exact IH.
Qed.

(** The account step: it fails and changes nothing, or it returns a user of
    the table it leaves. *)
Lemma find_or_create_google_cases payload w :
  (exists e, find_or_create_google_user payload w = (Throw e, w))
  \/ (exists u us,
        find_or_create_google_user payload w
        = (Normal u, with_db (with_user us (db w)) w)
        /\ google_step (clock w) (user (db w)) us
        /\ In u us
        /\ forall e, get payload "email" = VStr e ->
                     google_email_step (clock w) e (user (db w)) us).
Proof.
  unfold find_or_create_google_user, user_findFirst.
  destruct (raise_cases (google_where (get payload "email")) w)
    as [(e & _ & E)|(f & _ & E)].
  { left. exists e. apply bind_throw. now apply bind_throw. }
  erewrite bind_normal by (erewrite bind_normal by exact E; reflexivity).
  destruct (List.find f (user (db w))) as [u0|] eqn:F.
  - assert (Hin : In u0 (user (db w))) by (apply find_some in F; tauto).
    erewrite bind_normal by reflexivity.
    destruct (column_cases "profile_image_url" (get payload "picture") w)
      as [[e Ec]|[pc Ec]].
    { left. exists e. now apply bind_throw. }
    erewrite bind_normal by exact Ec.
    destruct (user_update_member u0 (login_google_user (clock w) pc) w Hin)
      as (u1 & Hin1 & Hid1 & Eu).
    right. eexists _, _. split; [exact Eu|]. split; [|split].
    + now apply google_user_logged_in.
    + apply in_map_iff. exists u1. split; [|exact Hin1].
      rewrite Hid1, Z.eqb_refl. reflexivity.
    + intros e0 _. left. now exists u0, pc.
  - destruct (column_cases "email" (get payload "email") w) as [[e Ec]|[ec Ec]].
    { left. exists e. now apply bind_throw. }
    erewrite bind_normal by exact Ec.
    destruct (column_cases "name" (get payload "name") w) as [[e En]|[nc En]].
    { left. exists e. now apply bind_throw. }
    erewrite bind_normal by exact En.
    destruct (column_cases "profile_image_url" (get payload "picture") w)
      as [[e Ep]|[pc Ep]].
    { left. exists e. now apply bind_throw. }
    erewrite bind_normal by exact Ep.
    right. eexists _, _. split; [reflexivity|]. split; [|split].
    + apply google_user_created.
    + apply in_or_app. right. now left.
    + intros e0 He0. right. rewrite He0 in *.
      destruct (google_where_string e0 (user (db w))) as (f0 & Ef0 & Efind).
      rewrite Ef0 in E. injection E as <-. rewrite Efind in F.
      split; [exact F|]. injection Ec as <-. now exists nc, pc.
Qed.

(** The part of the handler inside [try]. *)
Lemma google_try_cases req w :
  (exists e,
     google_try req w = (Throw e, w)
     /\ forall e', google_payload req w = inl e' -> e = e')
  \/ (exists u us,
        google_try req w
        = (Return (google_ok u (session_token w (User.id u))),
           with_db (with_user us (db w)) w)
        /\ google_step (clock w) (user (db w)) us
        /\ In u us
        /\ exists payload,
             google_payload req w = inr payload
             /\ forall e, get payload "email" = VStr e ->
                          google_email_step (clock w) e (user (db w)) us).
Proof.
  unfold google_try, verify_google_token.
  destruct (raise_cases (verifyIdToken (get (req_body req) "idToken")
                                       (env w !! "GOOGLE_CLIENT_ID") w) w)
    as [(e & Ev & E)|(payload & Ev & E)].
  { left. exists e. split; [now apply bind_throw|].
    unfold google_payload. rewrite Ev. now intros e' [= ->]. }
  assert (Hno : forall e', google_payload req w = inl e' -> False)
    by (unfold google_payload; rewrite Ev; discriminate).
  erewrite bind_normal by exact E.
  assert (Hd : (exists e, destructure payload w = (Throw e, w))
               \/ destructure payload w = (Normal tt, w))
    by (destruct payload; try (right; reflexivity); left; eexists; reflexivity).
  destruct Hd as [[e Ed]|Ed].
  { left. exists e. split; [now apply bind_throw|]. intros e' H. destruct (Hno _ H). }
  erewrite bind_normal by exact Ed.
  destruct (find_or_create_google_cases payload w)
    as [[e Ef]|(u & us & Ef & Hstep & Hin & Hemail)].
  { left. exists e. split; [now apply bind_throw|]. intros e' H. destruct (Hno _ H). }
  right. exists u, us.
  erewrite bind_normal by exact Ef.
  erewrite bind_normal by apply generateToken_run.
  split; [reflexivity|]. split; [exact Hstep|]. split; [exact Hin|].
  exists payload. split; [exact Ev|exact Hemail].
Qed.

Lemma google_mobile_valid req w :
  validationResult google_checks req = [] ->
  google_mobile req w
  = try_catch (google_try req)
              (fun error =>
                 console_error "Google auth error:" error ;;
                 respond (google_failed error))%js w.
Proof. intros Hval. unfold google_mobile. now rewrite validateRequest_pass. Qed.

(** X16. [google-mobile] always answers, with 200, 400 or 500; 400 is the
    answer to a body that fails validation, and to nothing else.  Only a
    200 changes the database, and then only the [user] table, by creating
    one user or updating one.  When google-auth-library rejects the id
    token, the answer is 500 with its message, not 401, and the error is
    logged. *)
Theorem google_mobile_always_answers (req : Request) (w : World) :
  exists resp w',
    google_mobile req w = (Return resp, w')
    /\ (status resp = 200 \/ status resp = 400 \/ status resp = 500)
    /\ (status resp = 400 <-> validationResult google_checks req <> [])
    /\ google_step (clock w) (user (db w)) (user (db w'))
    /\ phoneVerification (db w') = phoneVerification (db w)
    /\ profile_tables (db w') = profile_tables (db w)
    /\ (status resp <> 200 -> db w' = db w)
    /\ (forall e,
          validationResult google_checks req = [] ->
          google_payload req w = inl e ->
          resp = google_failed e
          /\ console w' = (console w ++ [Error "Google auth error:" e])%list).
Proof.
  destruct (validationResult google_checks req) as [|d ds] eqn:Hval.
  - rewrite google_mobile_valid by exact Hval.
    destruct (google_try_cases req w)
      as [(e & E & He)|(u & us & E & Hstep & _ & payload & Hp & _)].
    + erewrite try_catch_throw by exact E.
      eexists _, _. split; [reflexivity|]. cbn.
      split; [lia|]. split; [split; [lia|congruence]|].
      split; [constructor|]. do 3 (split; [reflexivity|]).
      intros e' _ He'. now rewrite (He _ He').
    + erewrite try_catch_return by exact E.
      eexists _, _. split; [reflexivity|]. cbn.
      split; [lia|]. split; [split; [lia|congruence]|].
      split; [exact Hstep|]. do 2 (split; [reflexivity|]).
      split; [lia|].
      intros e' _ He'. congruence.
  - unfold google_mobile, validateRequest. rewrite Hval.
    eexists _, _. split; [reflexivity|]. cbn.
    split; [lia|]. split; [split; [discriminate|reflexivity]|].
    split; [constructor|]. do 3 (split; [reflexivity|]).
    discriminate.
Qed.

(** X17. An account is found by its e-mail address alone, whatever its
    provider.  When the id token carries the address of a user and a
    picture, that user is logged in: the picture, [email_verified] and
    [last_login_at] are set, while name, phone and [auth_provider] stay as
    they were (the name of the id token is not stored), and no other user
    changes. *)
Theorem google_login_by_email_alone
    (req : Request) (w : World) (payload : Value) (e p : string) (u0 : User.t) :
  validationResult google_checks req = [] ->
  google_payload req w = inr payload ->
  get payload "email" = VStr e ->
  get payload "picture" = VStr p ->
  List.find (has_email e) (user (db w)) = Some u0 ->
  NoDup (map User.id (user (db w))) ->
  exists u',
    google_mobile req w
    = (Return (google_ok u' (session_token w (User.id u0))),
       with_db (with_user (map (fun u => if User.id u =? User.id u0 then u' else u)
                               (user (db w))) (db w)) w)
    /\ User.id u' = User.id u0
    /\ User.email u' = Some e
    /\ User.name u' = User.name u0
    /\ User.phone u' = User.phone u0
    /\ User.auth_provider u' = User.auth_provider u0
    /\ User.profile_image_url u' = Some p
    /\ User.email_verified u' = true
    /\ User.last_login_at u' = Some (clock w).
Proof.
  intros Hval Hp He Hpic Hfind Hnd.
  destruct (find_some _ _ Hfind) as [Hin Hmail].
  apply bool_decide_eq_true in Hmail.
  exists (login_google_user (clock w) (fun _ => Some p) u0).
  split; [|repeat split; exact Hmail].
  rewrite google_mobile_valid by exact Hval.
  apply try_catch_return. unfold google_try, verify_google_token.
  unfold google_payload in Hp.
  erewrite bind_normal by (rewrite Hp; reflexivity).
  assert (Hd : destructure payload w = (Normal tt, w)).
  { destruct payload; try reflexivity; discriminate. }
  erewrite bind_normal by exact Hd.
  destruct (user_update_member u0 (login_google_user (clock w) (fun _ => Some p)) w Hin)
    as (u1 & Hin1 & Hid1 & Eu).
  assert (u1 = u0) as -> by (eapply (NoDup_key User.id); eassumption).
  assert (Ef : find_or_create_google_user payload w
               = (Normal (login_google_user (clock w) (fun _ => Some p) u0),
                  with_db (with_user (map (fun u => if User.id u =? User.id u0
                       then login_google_user (clock w) (fun _ => Some p) u0 else u)
                               (user (db w))) (db w)) w)).
  { unfold find_or_create_google_user, user_findFirst. rewrite He, Hpic.
    destruct (google_where_string e (user (db w))) as (f & Ef & Efind).
    rewrite Ef. erewrite bind_normal by reflexivity. cbv beta.
    rewrite Efind, Hfind.
    erewrite bind_normal by reflexivity.
    erewrite bind_normal by reflexivity.
    rewrite Eu. do 3 f_equal. apply map_ext_in. intros u Hu.
    destruct (User.id u =? User.id u0) eqn:Eid; [|reflexivity].
    f_equal. eapply (NoDup_key User.id); try eassumption. lia. }
  erewrite bind_normal by exact Ef.
  erewrite bind_normal by apply generateToken_run.
  reflexivity.
Qed.

Lemma users_of_email_logged_in now e u0 pc users :
  users_of_email e
    (map (fun u => if User.id u =? User.id u0 then login_google_user now pc u else u) users)
  = map (fun u => if User.id u =? User.id u0 then login_google_user now pc u else u)
        (users_of_email e users).
Proof.
  unfold users_of_email. induction users as [|u users IH]; simpl; [reflexivity|].
  assert (E : has_email e (if User.id u =? User.id u0
                           then login_google_user now pc u else u)
              = has_email e u)
    by now destruct (User.id u =? User.id u0).
  rewrite E. destruct (has_email e u); simpl; now rewrite IH.
Qed.

Lemma users_of_phone_google_logged_in now ph u0 pc users :
  users_of_phone ph
    (map (fun u => if User.id u =? User.id u0 then login_google_user now pc u else u) users)
  = map (fun u => if User.id u =? User.id u0 then login_google_user now pc u else u)
        (users_of_phone ph users).
Proof.
  unfold users_of_phone. induction users as [|u users IH]; simpl; [reflexivity|].
  assert (E : has_phone ph (if User.id u =? User.id u0
                            then login_google_user now pc u else u)
              = has_phone ph u)
    by now destruct (User.id u =? User.id u0).
  rewrite E. destruct (has_phone ph u); simpl; now rewrite IH.
Qed.

Lemma google_email_step_keeps now e users users' :
  google_email_step now e users users' ->
  NoDup (map User.id users) -> one_user_per_email users ->
  NoDup (map User.id users')
  /\ one_user_per_email users'
  /\ (one_user_per_phone users -> one_user_per_phone users').
Proof.
  intros [(u0 & pc & Hin & ->)|(Hnone & nc & pc & ->)] Hnd Hone.
  - split; [|split].
    + rewrite map_map.
      replace (map _ users) with (map User.id users); [exact Hnd|].
      apply map_ext. intros u. now destruct (User.id u =? User.id u0).
    + intros e'. rewrite users_of_email_logged_in, List.length_map. apply Hone.
    + intros Hph ph. rewrite users_of_phone_google_logged_in, List.length_map. apply Hph.
  - split; [|split].
    + rewrite map_app. simpl. now apply NoDup_snoc_fresh.
    + intros e'. unfold users_of_email. rewrite List.filter_app, List.length_app. simpl.
      unfold has_email at 2. simpl.
      destruct (bool_decide_reflect (Some e = Some e')) as [[= ->]|Hne]; simpl.
      * replace (List.filter (has_email e') users) with (@nil User.t); [simpl; lia|].
        symmetry. apply filter_nil. intros x Hx. now apply (find_none _ _ Hnone).
      * specialize (Hone e'). unfold users_of_email in Hone. lia.
    + intros Hph ph. unfold users_of_phone. rewrite List.filter_app, List.length_app.
      simpl. specialize (Hph ph). unfold users_of_phone in Hph. lia.
Qed.

(** X18. Accounts stay unique under Google login.  If the payload of an
    accepted id token carries an e-mail address, then a table whose ids
    are distinct and which has at most one user per address is still so
    after the request, and likewise for at most one user per phone
    number. *)
Theorem google_mobile_keeps_accounts_unique (req : Request) (w : World) :
  (forall payload, google_payload req w = inr payload ->
                   exists e, get payload "email" = VStr e) ->
  NoDup (map User.id (user (db w))) ->
  one_user_per_email (user (db w)) ->
  exists resp w',
    google_mobile req w = (Return resp, w')
    /\ NoDup (map User.id (user (db w')))
    /\ one_user_per_email (user (db w'))
    /\ (one_user_per_phone (user (db w)) -> one_user_per_phone (user (db w'))).
Proof.
  intros Hmail Hnd Hone.
  destruct (validationResult google_checks req) as [|d ds] eqn:Hval.
  - rewrite google_mobile_valid by exact Hval.
    destruct (google_try_cases req w)
      as [(e & E & _)|(u & us & E & _ & _ & payload & Hp & Hstep)].
    + erewrite try_catch_throw by exact E.
      eexists _, _. split; [reflexivity|]. cbn. tauto.
    + erewrite try_catch_return by exact E.
      eexists _, _. split; [reflexivity|]. cbn.
      destruct (Hmail _ Hp) as [e He].
      exact (google_email_step_keeps _ _ _ _ (Hstep e He) Hnd Hone).
  - unfold google_mobile, validateRequest. rewrite Hval.
    eexists _, _. split; [reflexivity|]. cbn. tauto.
Qed.

End GoogleFacts.

Section PhoneLoginAndEmail.
Context {RT : Runtime}.

Lemma login_step_google_part now users users' :
  login_step now users users' ->
  map google_part (firstn (length users) users') = map google_part users.
Proof.
  intros [|phone_ name_ Hnone|u0 name_ Hin].
  - now rewrite firstn_all.
  - rewrite firstn_app, firstn_all, Nat.sub_diag. simpl. now rewrite app_nil_r.
  - rewrite <- (List.length_map
                  (fun u => if User.id u =? User.id u0
                            then login_phone_user now name_ u else u) users) at 1.
    rewrite firstn_all, map_map. apply map_ext. intros u.
    now destruct (User.id u =? User.id u0).
Qed.

Lemma login_step_one_user_per_email now users users' :
  login_step now users users' ->
  one_user_per_email users -> one_user_per_email users'.
Proof.
  intros [|phone_ name_ Hnone|u0 name_ Hin] Hone e; [apply Hone| |].
  - unfold users_of_email. rewrite List.filter_app, List.length_app. simpl.
    specialize (Hone e). unfold users_of_email in Hone. lia.
  - replace (users_of_email e (map _ users))
      with (map (fun u => if User.id u =? User.id u0
                          then login_phone_user now name_ u else u)
                (users_of_email e users)).
    + rewrite List.length_map. apply Hone.
    + unfold users_of_email. clear. induction users as [|u users IH]; simpl; [reflexivity|].
      assert (E : has_email e (if User.id u =? User.id u0
                               then login_phone_user now name_ u else u)
                  = has_email e u)
        by now destruct (User.id u =? User.id u0).
      rewrite E. destruct (has_email e u); simpl; now rewrite IH.
Qed.

(** X19. Phone login leaves what Google login goes by alone.  Whatever
    the request and its outcome, after [verify-phone-code] every user that
    was there has the key, e-mail address, provider, e-mail verification
    and picture it had, and a table with at most one user per e-mail
    address is still so. *)
Theorem verify_leaves_email_identity (req : Request) (w : World) :
  let users := user (db w) in
  let users' := user (db (snd (verify_phone_code req w))) in
  map google_part (firstn (length users) users') = map google_part users
  /\ (one_user_per_email users -> one_user_per_email users').
Proof.
  cbv zeta.
  destruct (verify_run req w) as (resp & w' & E & _ & Hus & _). rewrite E. simpl.
  split.
  - now apply (login_step_google_part _ _ _ Hus).
  - now apply (login_step_one_user_per_email _ _ _ Hus).
Qed.

End PhoneLoginAndEmail.

(** ** What a handler leaves alone; the calls to the provider *)

Section Frames.
Context {S : Type} (part : World -> S).

Lemma keeps_bind {A B} (m : M A) (k : A -> M B) :
  keeps part m -> (forall a, keeps part (k a)) -> keeps part (bind m k).
Proof.
  intros Hm Hk w. unfold bind. specialize (Hm w).
  destruct (m w) as [[a|e|r] w1]; simpl in *; [rewrite Hk|..]; exact Hm.
Qed.

Lemma keeps_try_catch {A} (m : M A) (h : Exn -> M A) :
  keeps part m -> (forall e, keeps part (h e)) -> keeps part (try_catch m h).
Proof.
  intros Hm Hh w. unfold try_catch. specialize (Hm w).
  destruct (m w) as [[a|e|r] w1]; simpl in *; [|rewrite Hh|]; exact Hm.
Qed.

Lemma after_bind {A B} (m : M A) (k : A -> M B) w :
  (forall a, keeps part (k a)) -> part (snd (bind m k w)) = part (snd (m w)).
Proof.
  intros Hk. unfold bind.
  destruct (m w) as [[a|e|r] w1]; simpl; [apply Hk|reflexivity|reflexivity].
Qed.

Lemma after_try_catch {A} (m : M A) (h : Exn -> M A) w :
  (forall e, keeps part (h e)) -> part (snd (try_catch m h w)) = part (snd (m w)).
Proof.
  intros Hh. unfold try_catch.
  destruct (m w) as [[a|e|r] w1]; simpl; [reflexivity|apply Hh|reflexivity].
Qed.

Lemma keeps_validateRequest {RT : Runtime} checks req (next : M unit) :
  keeps part next -> keeps part (validateRequest checks req next).
Proof.
  intros Hn. unfold validateRequest.
  destruct (validationResult checks req); [exact Hn|]. intros w. reflexivity.
Qed.

End Frames.

(** A statement that reads the world, or writes only outside the part. *)
Ltac keeps_leaf :=
  let w := fresh "w" in
  intros w;
  cbv [ret throw respond send gets modify Date_now console_log console_error
       jwt_verify_env generateToken as_String as_BigInt BigInt_M toUpperCase_M raise
       prisma.user.findUnique_phone prisma.user.findUnique_id prisma.user.create
       prisma.user.update prisma.creatorProfile.findUnique_user_id
       prisma.package.create prisma.portfolioItem.create prisma.kYC.upsert_creator_id
       prisma.phoneVerification.findFirst
       prisma.phoneVerification.findFirst_orderBy_created_at_desc
       prisma.phoneVerification.update_verified_at
       verify_google_token destructure user_findFirst column bind];
  repeat match goal with
         | |- context [match ?x with _ => _ end] => destruct x
         end;
  reflexivity.

Ltac keeps_step :=
  first
    [ apply keeps_validateRequest
    | apply keeps_try_catch; [|intros ?]
    | apply keeps_bind; [|intros ?]
    | match goal with
      | |- keeps _ (match ?x with _ => _ end) => destruct x
      end
    | keeps_leaf ].

Ltac keeps_all := repeat keeps_step.

Section ProviderCalls.
Context {RT : Runtime}.





Lemma dispatch_sms_calls phone phone_s otp w :
  twilio_calls (snd (dispatch_sms phone phone_s otp w))
  = (twilio_calls w ++ if twilio_configured w then [start_call w phone] else [])%list.
Proof.
  unfold dispatch_sms.
  erewrite bind_normal by reflexivity.
  destruct (twilio_configured w).
  - erewrite bind_normal by reflexivity.
    rewrite (after_try_catch twilio_calls).
    2:{ intros e. apply keeps_bind; [keeps_all|]. intros _.
        apply keeps_bind; [|intros _; keeps_all].
        destruct (bool_decide _); keeps_all. }
    rewrite (after_bind twilio_calls) by (intros st; keeps_all).
    unfold twilio_request, start_call.
    destruct (twilio w (twilio_calls w) _); reflexivity.
  - rewrite (after_bind twilio_calls) by (intros st; keeps_all).
    simpl. now rewrite app_nil_r.
Qed.

(** X21. [send-phone-verification-code] asks the provider for an SMS
    exactly when the request is answered 200 and the provider is
    configured, and then once, for the phone of the request: a request
    refused by validation or by the one-minute cooldown, or failed, costs
    no SMS. *)
Theorem send_asks_provider_only_when_accepted (req : Request) (w : World) :
  twilio_calls (snd (send_phone_verification_code req w))
  = (twilio_calls w
     ++ if twilio_configured w
        then match sent_status (send_phone_verification_code req w) with
             | Some 200 => [start_call w (get (req_body req) "phone")]
             | _ => []
             end
        else [])%list.
Proof.
  assert (Hnil : forall l : list TwilioCall,
             l = (l ++ if twilio_configured w then [] else [])%list)
    by (intros l; destruct (twilio_configured w); now rewrite app_nil_r).
  destruct (validationResult send_checks req) as [|err errs] eqn:Hval.
  2:{ unfold send_phone_verification_code, validateRequest. rewrite Hval. simpl.
      apply Hnil. }
  destruct (get (req_body req) "phone") as [| |b|q|n|ms|phone_|items|fields] eqn:Hp.
  7:{ destruct (List.find (recent_for phone_ (clock w - 60 * 1000))
                          (phoneVerification (db w))) as [r0|] eqn:F.
      - rewrite (send_cooled_down req w phone_ r0) by assumption. simpl. apply Hnil.
      - rewrite (send_accepted req w phone_) by assumption. simpl.
        rewrite dispatch_sms_calls. reflexivity. }
  all: unfold send_phone_verification_code;
    rewrite validateRequest_pass by exact Hval; rewrite Hp; simpl; apply Hnil.
Qed.

End ProviderCalls.

Section OtherHandlers.
Context {RT : Runtime} {GA : GoogleAuth}.

Lemma authenticated_route_keeps {S} (part : World -> S) checks handler req :
  (forall c w, part (with_console c w) = part w) ->
  (forall userId, keeps part (handler req userId)) ->
  keeps part (authenticated_route checks handler req).
Proof.
  intros Hc Hh. unfold authenticated_route, authenticateToken.
  apply keeps_validateRequest.
  destruct (no_token (bearer_token req)); [keeps_all|].
  apply keeps_bind; [keeps_all|]. intros [decoded|]; [apply Hh|keeps_all].
Qed.

(** X22. Only the two phone handlers work on the phone flow.  update-name,
    the auth profile fetch, create-package, create-portfolio, submit-kyc
    and google-mobile never call the provider, never add, change or remove
    a verification row and never draw from the random sources, whatever
    the request and its outcome. *)
Theorem other_handlers_keep_phone_flow (req : Request) (w : World) :
  Forall (fun handler => phone_flow_state (snd (handler req w)) = phone_flow_state w)
         [update_name; auth_profile; create_package; create_portfolio; submit_kyc;
          google_mobile].
Proof.
  repeat (apply List.Forall_cons; [cbv beta|]); [..|apply List.Forall_nil];
    match goal with
    | |- _ (snd (?h req w)) = _ => revert w; change (keeps phone_flow_state (h req))
    end.
  - unfold update_name. keeps_all.
  - unfold auth_profile. keeps_all.
  - apply authenticated_route_keeps; [reflexivity|].
    intros userId. unfold create_package_handler. keeps_all.
  - apply authenticated_route_keeps; [reflexivity|].
    intros userId. unfold create_portfolio_handler. keeps_all.
  - apply authenticated_route_keeps; [reflexivity|].
    intros userId. unfold submit_kyc_handler. keeps_all.
  - unfold google_mobile, find_or_create_google_user. keeps_all.
Qed.

End OtherHandlers.

(** ** The further theorems at concrete requests *)

Module MoreExamples.
Import Fixture Scenarios.

Lemma phone_verification_log_append_only_witness :
  let w := fresh no_env (twilio_says "pending") in
  let w' := snd (send_phone_verification_code send_request w) in
  log_continues (phoneVerification (db w)) (phoneVerification (db w'))
  /\ (forall r', In r' (phoneVerification (db w')) ->
                 PhoneVerification.verified_at r' = None ->
                 In r' (phoneVerification (db w)) \/ PhoneVerification.created_at r' = clock w)
  /\ (NoDup (map PhoneVerification.id (phoneVerification (db w))) ->
      NoDup (map PhoneVerification.id (phoneVerification (db w')))
      /\ forall r, In r (phoneVerification (db w)) ->
                   PhoneVerification.verified_at r <> None ->
                   In r (phoneVerification (db w'))).
Proof.
  cbv zeta.
  apply (phone_verification_log_append_only (RT := runtime) send_request
           (fresh no_env (twilio_says "pending"))).
  left. reflexivity.
Defined.

Lemma local_verification_decided_by_pending_rows_witness :
  exists r,
    In r (phoneVerification (db one_code))
    /\ PhoneVerification.code r = "482913"
    /\ PhoneVerification.verified_at r = None.
Proof.
  destruct (local_verification_decided_by_pending_rows (RT := runtime)
              (verify_request "482913") one_code phone "482913"
              ltac:(reflexivity) ltac:(reflexivity) ltac:(reflexivity)
              ltac:(left; reflexivity) ltac:(reflexivity))
    as [[Hsome _] _].
  destruct (Hsome ltac:(reflexivity)) as (r & Hin & _ & Hcode & _ & Hpending).
  exists r. split; [exact Hin|]. split; [exact Hcode|exact Hpending].
Defined.

Lemma issued_code_verifies_for_ten_minutes_witness :
  let w := fresh no_env (twilio_says "pending") in
  let w1 := snd (send_phone_verification_code send_request w) in
  sent_status (verify_phone_code (verify_request (issued_otp w)) w1) = Some 200.
Proof.
  cbv zeta.
  apply (proj1 (issued_code_verifies_for_ten_minutes (RT := runtime)
                  send_request (verify_request (issued_otp (fresh no_env (twilio_says "pending"))))
                  (fresh no_env (twilio_says "pending"))
                  (snd (send_phone_verification_code send_request
                          (fresh no_env (twilio_says "pending"))))
                  (snd (send_phone_verification_code send_request
                          (fresh no_env (twilio_says "pending"))))
                  phone
                  ltac:(reflexivity) ltac:(reflexivity) ltac:(vm_compute; reflexivity)
                  ltac:(vm_compute; reflexivity) ltac:(reflexivity) ltac:(reflexivity)
                  ltac:(left; reflexivity) ltac:(reflexivity))).
  - vm_compute. reflexivity.
  - intros r Hr. exact Hr.
Defined.

Lemma successful_verification_logs_in_witness :
  exists u,
    In u (user (db (snd (verify_phone_code (verify_request "482913") one_code))))
    /\ User.phone u = Some phone
    /\ User.phone_verified u = true.
Proof.
  edestruct (successful_verification_logs_in (RT := runtime)
               (verify_request "482913") one_code
               (snd (verify_phone_code (verify_request "482913") one_code))
               _ phone
               ltac:(reflexivity) ltac:(left; reflexivity) ltac:(apply NoDup_nil_2)
               ltac:(vm_compute; reflexivity) ltac:(reflexivity))
    as (u & _ & Hin & Hphone & Hverified & _).
  exists u. split; [exact Hin|]. split; [exact Hphone|exact Hverified].
Defined.


Lemma bearer_prefix_is_optional_witness :
  create_package (with_authorization (Some good_token) (mkRequest None package_body))
                 creator_world
  = create_package (with_authorization (Some ("Bearer " ++ good_token))
                                       (mkRequest None package_body))
                   creator_world.
Proof.
  apply (bearer_prefix_is_optional (RT := runtime) create_package
           (mkRequest None package_body) creator_world good_token).
  - right. right. left. reflexivity.
  - reflexivity.
Defined.


Lemma issued_token_names_its_user_witness :
  exists u token,
    In u (user (db (snd code_accepted)))
    /\ get (body accepted_answer) "token" = VStr token
    /\ (no_space token = true -> token <> "" ->
        authenticated_route (RT := runtime) create_package_checks create_package_handler
          (with_authorization (Some ("Bearer " ++ token)) (mkRequest None package_body))
          (snd code_accepted)
        = create_package_handler
            (with_authorization (Some ("Bearer " ++ token)) (mkRequest None package_body))
            (VStr (Z_toString (User.id u)))
            (snd code_accepted)).
Proof.
  destruct (issued_token_names_its_user (RT := runtime)
              (verify_request "482913") one_code (snd code_accepted) accepted_answer
              create_package_checks create_package_handler
              (mkRequest None package_body) (snd code_accepted))
    as (u & token & Hin & Htoken & _ & Hroute).
  - vm_compute. reflexivity.
  - reflexivity.
  - reflexivity.
  - intros userId iat. exists (VObj [("userId", VStr userId)]).
    split; [destruct userId; vm_compute; reflexivity | reflexivity].
  - reflexivity.
  - exists u, token. split; [exact Hin|]. split; [exact Htoken|exact Hroute].
Defined.

Lemma google_login_by_email_alone_witness :
  exists u',
    sent (google_mobile (google_request "ann-id-token") ann_world)
    = Some (google_ok u' (session_token ann_world 7))
    /\ User.name u' = Some "Ann"
    /\ User.auth_provider u' = None
    /\ User.profile_image_url u' = Some "https://cdn.example/ann.png".
Proof.
  destruct (google_login_by_email_alone (RT := runtime) (GA := google)
              (google_request "ann-id-token") ann_world ann_payload
              "ann@example.com" "https://cdn.example/ann.png" ann
              ltac:(reflexivity) ltac:(reflexivity) ltac:(reflexivity)
              ltac:(reflexivity) ltac:(reflexivity)
              ltac:(apply NoDup_singleton))
    as (u' & E & _ & _ & Hname & _ & Hprovider & Hpicture & _).
  exists u'. rewrite E. split; [reflexivity|].
  split; [exact Hname|]. split; [exact Hprovider|exact Hpicture].
Defined.

Lemma ann_world_one_user_per_email : one_user_per_email (user (db ann_world)).
Proof.
  intros e. unfold users_of_email. simpl.
  destruct (has_email e ann); simpl; lia.
Qed.

Lemma google_mobile_keeps_accounts_unique_witness :
  exists resp w',
    google_mobile (google_request "bob-id-token") ann_world = (Return resp, w')
    /\ NoDup (map User.id (user (db w')))
    /\ one_user_per_email (user (db w')).
Proof.
  destruct (google_mobile_keeps_accounts_unique (RT := runtime) (GA := google)
              (google_request "bob-id-token") ann_world)
    as (resp & w' & E & Hids & Hemails & _).
  - intros payload Hp. vm_compute in Hp. injection Hp as <-.
    eexists. reflexivity.
  - apply NoDup_singleton.
  - exact ann_world_one_user_per_email.
  - exists resp, w'. split; [exact E|]. split; [exact Hids|exact Hemails].
Defined.

(** [google-mobile] at the fixture's tokens: a new account, an existing
    one, a token Google refuses, a body without [idToken]. *)
Example google_mobile_runs :
  sent_status (google_mobile (google_request "bob-id-token") ann_world) = Some 200
  /\ map User.email (user (db (snd (google_mobile (google_request "bob-id-token") ann_world))))
     = [Some "ann@example.com"; Some "bob@example.com"]
  /\ sent_status (google_mobile (google_request "ann-id-token") ann_world) = Some 200
  /\ map User.last_login_at
         (user (db (snd (google_mobile (google_request "ann-id-token") ann_world))))
     = [Some 100000]
  /\ sent (google_mobile (google_request "garbage") ann_world)
     = Some (google_failed (mkExn "Error" "Wrong number of segments in token" None))
  /\ sent_status (google_mobile (mkRequest None (VObj [])) ann_world) = Some 400.
Proof. vm_compute. repeat split; reflexivity. Qed.

End MoreExamples.
